(** * Simulador de investimentos: motor de simulacao e de calculo reverso

    Shallow embedding of the calculation engine of [simulador_otimizado.py]:
    the income-tax table ([CalculadoraIR]), the forward simulator
    ([SimuladorOtimizado.simular_investimento]), the periodic-yield probe
    ([simular_rendimento_mensal]) and the reverse solver
    ([calcular_valor_necessario]).

    Numbers.  Python's [float] values are modelled as exact rationals in
    canonical form ([Qc]): every arithmetic operation is the exact one, so the
    statements below are about the algorithm, not about binary rounding; the
    one place where leaving the range of [float] raises an exception, the
    power [**] of the seed estimate, keeps its [OverflowError].
    Python's [int] values ([dias], [meses], [prazo_meses]) are [Z].  The float
    [inf] occurs twice in the source, as the last limit of the tax table and as
    the initial value of [menor_diferenca]; each gets its own constructor. *)

From Equations Require Import Equations.
From Stdlib Require Import String DecimalString ZArith QArith Qcanon Qcabs List Bool Lia Lqa.
Import ListNotations.

Open Scope Qc_scope.

(** ** Numeric helpers *)

Module Num.

(** An [int] used where a [float] is expected. *)
Definition of_int (z : Z) : Qc := Q2Qc (inject_Z z).

(** Comparisons as the booleans Python computes. *)
Definition ltb (x y : Qc) : bool := if Qclt_le_dec x y then true else false.
Definition leb (x y : Qc) : bool := if Qclt_le_dec y x then false else true.

(** [max(a, b)] of Python: [b] when [b > a], otherwise [a]. *)
Definition max (a b : Qc) : Qc := if ltb a b then b else a.

(** [x ** n] for a float [x] and an int [n]. *)
Definition pow (x : Qc) (n : Z) : Qc :=
  if (0 <=? n)%Z then Qcpower x (Z.to_nat n)
  else / Qcpower x (Z.to_nat (- n)).

(** [sum(l)]: left to right, starting from [0]. *)
Definition sum (l : list Qc) : Qc := fold_left Qcplus l 0.

(** [range(n)] *)
Definition range (n : Z) : list Z := map Z.of_nat (seq 0 (Z.to_nat n)).

(** [l[-k:]] for [0 < k <= len(l)]: the last [k] elements. *)
Definition ultimos {A : Type} (k : nat) (l : list A) : list A :=
  skipn (length l - k) l.

(** The largest finite [float], [(2^53 - 1) * 2^971]. *)
Definition DBL_MAX : Qc := of_int ((2 ^ 53 - 1) * 2 ^ 971).

(** A result beyond the range of [float]; [float ** int] raises
    [OverflowError] there. *)
Definition transborda (x : Qc) : bool := ltb DBL_MAX (Qcabs x).

End Num.

(** ** Tax model: [CalculadoraIR] *)

(** Upper limit of a bracket: a day count, or [float('inf')]. *)
Inductive Limite : Type :=
| Ate (dias : Z)
| SemLimite.

(** [dias <= limite_dias] *)
Definition dentro (dias : Z) (l : Limite) : bool :=
  match l with
  | Ate d => (dias <=? d)%Z
  | SemLimite => true
  end.

Definition TABELA_IR : list (Limite * Qc) :=
  [ (Ate 180, Q2Qc 0.225);
    (Ate 360, Q2Qc 0.20);
    (Ate 720, Q2Qc 0.175);
    (SemLimite, Q2Qc 0.15) ].

(** The [for limite_dias, aliquota in TABELA_IR] loop with its [return] in the
    body, and the [return rendimento * 0.15] that follows the loop. *)
Fixpoint percorrer (tabela : list (Limite * Qc)) (rendimento : Qc) (dias : Z) : Qc :=
  match tabela with
  | [] => rendimento * Q2Qc 0.15
  | (limite_dias, aliquota) :: resto =>
      if dentro dias limite_dias then rendimento * aliquota
      else percorrer resto rendimento dias
  end.

Definition calcular_ir (rendimento : Qc) (dias : Z) : Qc :=
  if Num.leb rendimento 0 then 0
  else percorrer TABELA_IR rendimento dias.

(** The table as the specification words it: the rate of the first bracket
    whose inclusive bound is at least the day count. *)
Definition aliquota_da_tabela (dias : Z) : Qc :=
  if (dias <=? 180)%Z then Q2Qc 0.225
  else if (dias <=? 360)%Z then Q2Qc 0.20
  else if (dias <=? 720)%Z then Q2Qc 0.175
  else Q2Qc 0.15.

(** ** Data model *)

(** The values of [risco] in the catalogue. *)
Inductive Risco : Type := Baixo | Medio | Alto | Variavel.

(** [ModalidadeInvestimento], without its display text [descricao]; the
    engine reads [tem_ir] only. *)
Record Modalidade : Type := mkModalidade {
  nome : string;
  percentual_cdi : Qc;
  tem_ir : bool;
  liquidez_dias : Z;
  risco : Risco
}.

(** The [dados] dictionary built by [validar_dados_normal]: the keys the
    engine reads. *)
Record DadosNormal : Type := mkDadosNormal {
  valor_inicial : Qc;
  aporte_mensal : Qc;
  meta : Qc;
  taxa_mensal : Qc;
  considerar_ir : bool
}.

(** One element of [resultados]. *)
Record Registro : Type := mkRegistro {
  mes : Z;
  saldo : Qc;
  rendimento : Qc;
  ir : Qc;
  aporte : Qc
}.

(** The [ir = 0; if dados['considerar_ir'] and modalidade.tem_ir: ir = ...]
    lines shared by the simulator and the probe. *)
Definition ir_do_periodo (considera : bool) (modalidade : Modalidade)
    (rendimento_bruto : Qc) (meses : Z) : Qc :=
  if considera && tem_ir modalidade
  then calcular_ir rendimento_bruto (meses * 30)
  else 0.

(** ** Forward simulator: [simular_investimento] *)

(** The local variables of the [while] loop. *)
Record Estado : Type := mkEstado {
  e_saldo : Qc;
  e_meses : Z;
  e_resultados : list Registro
}.

(** [saldo < dados['meta'] and meses < 600] *)
Definition continua (dados : DadosNormal) (e : Estado) : bool :=
  Num.ltb (e_saldo e) (meta dados) && (e_meses e <? 600)%Z.

(** One execution of the loop body. *)
Definition passo (dados : DadosNormal) (modalidade : Modalidade) (e : Estado) : Estado :=
  let rendimento := e_saldo e * taxa_mensal dados in
  let ir := ir_do_periodo (considerar_ir dados) modalidade rendimento (e_meses e) in
  let saldo := e_saldo e + (rendimento - ir + aporte_mensal dados) in
  let meses := (e_meses e + 1)%Z in
  mkEstado saldo meses
    (e_resultados e ++ [mkRegistro meses saldo rendimento ir (aporte_mensal dados)]).

Definition inspecionar {A : Type} (a : A) : {b : A | a = b} := exist _ a eq_refl.

(** Periods left before the 600-period cap. *)
Definition restante (e : Estado) : nat := Z.to_nat (600 - e_meses e).
Arguments restante : simpl never.

(** The [while] loop; it terminates because [600 - meses] decreases. *)
Equations? laco (dados : DadosNormal) (modalidade : Modalidade) (e : Estado) : Estado
  by wf (restante e) lt :=
  laco dados modalidade e with inspecionar (continua dados e) => {
    | exist _ true _ => laco dados modalidade (passo dados modalidade e)
    | exist _ false _ => e }.
Proof.
  match goal with
  | H : continua _ _ = true |- _ =>
      unfold continua in H; apply andb_true_iff in H;
      destruct H as [_ H]; apply Z.ltb_lt in H
  end.
  unfold restante. cbn [passo e_meses]. lia.
Qed.

Definition estado_inicial (dados : DadosNormal) : Estado :=
  mkEstado (valor_inicial dados) 0 [].

(** [simular_investimento] returns [resultados]; the copy it stores in
    [self.resultados_df] is not read by the engine. *)
Definition simular_investimento (dados : DadosNormal) (modalidade : Modalidade)
    : list Registro :=
  e_resultados (laco dados modalidade (estado_inicial dados)).

(** The period iteration without its stop rule: the state after [k] loop
    bodies, and the records it has produced. *)
Fixpoint iterar (dados : DadosNormal) (modalidade : Modalidade) (k : nat) (e : Estado) : Estado :=
  match k with
  | O => e
  | S k' => passo dados modalidade (iterar dados modalidade k' e)
  end.

Definition periodos (dados : DadosNormal) (modalidade : Modalidade) (k : nat) : list Registro :=
  e_resultados (iterar dados modalidade k (estado_inicial dados)).

Definition saldo_apos (dados : DadosNormal) (modalidade : Modalidade) (k : nat) : Qc :=
  e_saldo (iterar dados modalidade k (estado_inicial dados)).

(** The record appended by the loop body executed in period [k + 1]. *)
Definition registro_do_periodo (dados : DadosNormal) (modalidade : Modalidade)
    (k : nat) : Registro :=
  let s := saldo_apos dados modalidade k in
  let rendimento := s * taxa_mensal dados in
  let ir := ir_do_periodo (considerar_ir dados) modalidade rendimento (Z.of_nat k) in
  mkRegistro (Z.of_nat k + 1) (s + (rendimento - ir + aporte_mensal dados))
             rendimento ir (aporte_mensal dados).

(** The stop rule of the specification, read on a prefix of the iteration:
    its last record has reached the target, or it holds 600 records. *)
Definition parou (dados : DadosNormal) (l : list Registro) : Prop :=
  (exists r, last (map Some l) None = Some r /\ meta dados <= saldo r)
  \/ length l = 600%nat.

(** [balance[i-1]] read off the returned sequence, with
    [balance[0] = initialCapital]; [i] is the 0-based position of a record. *)
Definition saldo_anterior (dados : DadosNormal) (l : list Registro) (i : nat) : Qc :=
  match i with
  | O => valor_inicial dados
  | S j => match nth_error l j with
           | Some r => saldo r
           | None => 0
           end
  end.

(** Scenario A of the specification, with a nearer target, and the
    [CDI 105%] entry of the catalogue. *)
Definition cenario_a : DadosNormal :=
  mkDadosNormal (Q2Qc 30000) (Q2Qc 2500) (Q2Qc 50000) (Q2Qc 0.0105) true.

Definition cdi_105 : Modalidade :=
  mkModalidade "CDI 105%"%string (Q2Qc 105) true 60 Baixo.

(** ** Reverse mode: [simular_rendimento_mensal] and [calcular_valor_necessario] *)

Module Reverso.

(** The [dados] dictionary built by [validar_dados_reverso]: the keys the
    engine reads. *)
Record Dados : Type := mkDados {
  rendimento_desejado : Qc;
  prazo_meses : Z;
  aporte_mensal : Qc;
  taxa_mensal : Qc;
  considerar_ir : bool
}.

(** What [calcular_valor_necessario] can raise: the [ValueError] of each of
    its two [raise] statements, the power [(1 + taxa_liquida) ** prazo_meses]
    when it leaves the range of [float], and the division by [prazo_meses]
    when it is zero. *)
Inductive Excecao : Type :=
| TaxaLiquidaNaoPositiva
| PrecisaoInadequada
| ZeroDivisionError
| OverflowError.

(** The dictionary returned on success. *)
Record Resultado : Type := mkResultado {
  valor_inicial_necessario : Qc;
  rendimento_mensal_previsto : Qc;
  valor_total_investido : Qc;
  diferenca_rendimento : Qc
}.

(** *** The probe *)

(** Local variables of the probe's [for] loop. *)
Record EstadoSonda : Type := mkEstadoSonda {
  s_saldo : Qc;
  s_rendimentos : list Qc
}.

(** Body of [for mes in range(prazo_meses)]. *)
Definition passo_sonda (dados : Dados) (modalidade : Modalidade)
    (s : EstadoSonda) (mes : Z) : EstadoSonda :=
  let rendimento_bruto := s_saldo s * taxa_mensal dados in
  let ir := ir_do_periodo (considerar_ir dados) modalidade rendimento_bruto mes in
  let rendimento_liquido := rendimento_bruto - ir in
  mkEstadoSonda (s_saldo s + (rendimento_liquido + aporte_mensal dados))
                (s_rendimentos s ++ [rendimento_liquido]).

Definition laco_sonda (valor_inicial : Qc) (dados : Dados) (modalidade : Modalidade)
    : EstadoSonda :=
  fold_left (passo_sonda dados modalidade) (Num.range (prazo_meses dados))
            (mkEstadoSonda valor_inicial []).

Definition simular_rendimento_mensal (valor_inicial : Qc) (dados : Dados)
    (modalidade : Modalidade) : Qc :=
  let rendimentos_mensais := s_rendimentos (laco_sonda valor_inicial dados modalidade) in
  match rendimentos_mensais with
  | [] => 0
  | _ :: _ =>
      let ultimos_meses := Nat.min 3 (length rendimentos_mensais) in
      Num.sum (Num.ultimos ultimos_meses rendimentos_mensais)
      / Num.of_int (Z.of_nat ultimos_meses)
  end.

(** *** Probe calls as an effect

    The solver calls the probe as a method; to count the calls, they are
    threaded through a log of the capitals handed to it. *)

Definition Sonda (A : Type) : Type := list Qc -> A * list Qc.

Definition ret {A : Type} (a : A) : Sonda A := fun log => (a, log).

Definition bind {A B : Type} (c : Sonda A) (k : A -> Sonda B) : Sonda B :=
  fun log => let (a, log') := c log in k a log'.

Definition sondar (dados : Dados) (modalidade : Modalidade) (valor : Qc) : Sonda Qc :=
  fun log => (simular_rendimento_mensal valor dados modalidade, log ++ [valor]).

Definition executar {A : Type} (c : Sonda A) : A * list Qc := c [].

Notation "x <- c ;; k" := (bind c (fun x => k))
  (at level 61, c at next level, right associativity).

(** *** The seed estimate *)

(** [fator_ir] *)
Definition fator_ir (dados : Dados) (modalidade : Modalidade) : Qc :=
  if considerar_ir dados && tem_ir modalidade
  then 1 - calcular_ir 1 (prazo_meses dados * 30)
  else 1.

Definition taxa_liquida (dados : Dados) (modalidade : Modalidade) : Qc :=
  taxa_mensal dados * fator_ir dados modalidade.

(** Lines 1098-1114: the first [raise] and the closed-form estimate.  The
    power is evaluated first in line 1110, the division by [prazo_meses]
    in line 1112. *)
Definition estimativa_inicial (dados : Dados) (modalidade : Modalidade)
    : Excecao + Qc :=
  let taxa_liquida := taxa_liquida dados modalidade in
  if Num.leb taxa_liquida 0 then inl TaxaLiquidaNaoPositiva
  else
    let valor_inicial_estimado := rendimento_desejado dados / taxa_liquida in
    if Num.ltb 0 (aporte_mensal dados) then
      if Num.ltb 0 taxa_liquida then
        let potencia := Num.pow (1 + taxa_liquida) (prazo_meses dados) in
        if Num.transborda potencia then inl OverflowError
        else
          let valor_futuro_aportes :=
            aporte_mensal dados * ((potencia - 1) / taxa_liquida) in
          if (prazo_meses dados =? 0)%Z then inl ZeroDivisionError
          else
            let rendimento_aportes_ultimo_mes :=
              valor_futuro_aportes * taxa_liquida / Num.of_int (prazo_meses dados) in
            let rendimento_necessario_capital :=
              rendimento_desejado dados - rendimento_aportes_ultimo_mes in
            inr (Num.max 0 (rendimento_necessario_capital / taxa_liquida))
      else inr valor_inicial_estimado
    else inr valor_inicial_estimado.

(** The seed estimate overflows: a contribution is given and the power of
    line 1110 is out of range. *)
Definition semente_transborda (dados : Dados) (modalidade : Modalidade) : bool :=
  Num.ltb 0 (aporte_mensal dados)
  && Num.transborda (Num.pow (1 + taxa_liquida dados modalidade) (prazo_meses dados)).

(** *** Bisection *)

(** Local variables of the bisection loop; [menor_diferenca] starts at
    [float('inf')], which is [None]. *)
Record Busca : Type := mkBusca {
  valor_min : Qc;
  valor_max : Qc;
  melhor_valor : Qc;
  menor_diferenca : option Qc
}.

(** [diferenca < menor_diferenca] *)
Definition melhora (diferenca : Qc) (menor : option Qc) : bool :=
  match menor with
  | None => true
  | Some m => Num.ltb diferenca m
  end.

(** [menor_diferenca > limite] *)
Definition excede (menor : option Qc) (limite : Qc) : bool :=
  match menor with
  | None => true
  | Some m => Num.ltb limite m
  end.

Definition busca_inicial (dados : Dados) (valor_inicial_estimado : Qc) : Busca :=
  mkBusca 0
          (Num.max (valor_inicial_estimado * Q2Qc 3) (rendimento_desejado dados * Q2Qc 100))
          valor_inicial_estimado
          None.

(** [for iteracao in range(50)] with its [break]; [n] is the number of
    iterations left. *)
Fixpoint busca (n : nat) (dados : Dados) (modalidade : Modalidade) (b : Busca)
    : Sonda Busca :=
  match n with
  | O => ret b
  | S n' =>
      let valor_teste := (valor_min b + valor_max b) / Q2Qc 2 in
      rendimento_simulado <- sondar dados modalidade valor_teste ;;
      let diferenca := Qcabs (rendimento_simulado - rendimento_desejado dados) in
      let b1 :=
        if melhora diferenca (menor_diferenca b)
        then mkBusca (valor_min b) (valor_max b) valor_teste (Some diferenca)
        else b in
      if Num.ltb diferenca 1 || Num.ltb (Qcabs (valor_max b - valor_min b)) 1
      then ret b1
      else if Num.ltb rendimento_simulado (rendimento_desejado dados)
      then busca n' dados modalidade
             (mkBusca valor_teste (valor_max b1) (melhor_valor b1) (menor_diferenca b1))
      else busca n' dados modalidade
             (mkBusca (valor_min b1) valor_teste (melhor_valor b1) (menor_diferenca b1))
  end.

(** Lines 1143-1152: the final check and the returned dictionary. *)
Definition concluir (dados : Dados) (modalidade : Modalidade) (b : Busca)
    : Sonda (Excecao + Resultado) :=
  match menor_diferenca b with
  | None => ret (inl PrecisaoInadequada)
  | Some menor =>
      if Num.ltb (rendimento_desejado dados * Q2Qc 0.1) menor
      then ret (inl PrecisaoInadequada)
      else
        previsto <- sondar dados modalidade (melhor_valor b) ;;
        ret (inr (mkResultado
                    (melhor_valor b)
                    previsto
                    (melhor_valor b
                     + aporte_mensal dados * Num.of_int (prazo_meses dados))
                    menor))
  end.

Definition calcular_valor_necessario (dados : Dados) (modalidade : Modalidade)
    : Sonda (Excecao + Resultado) :=
  match estimativa_inicial dados modalidade with
  | inl e => ret (inl e)
  | inr valor_inicial_estimado =>
      b <- busca 50 dados modalidade (busca_inicial dados valor_inicial_estimado) ;;
      concluir dados modalidade b
  end.

(** *** The probe as the specification words it

    Period [k] (counted from 1) accrues the balance times the periodic
    rate, is taxed at [(k - 1) * 30] elapsed days when tax applies, and
    adds the net yield and the contribution to the balance. *)

Definition imposto_espec (dados : Dados) (modalidade : Modalidade)
    (bruto : Qc) (k : nat) : Qc :=
  if considerar_ir dados && tem_ir modalidade
  then calcular_ir bruto ((Z.of_nat k - 1) * 30)
  else 0.

Definition liquido_espec (dados : Dados) (modalidade : Modalidade)
    (saldo : Qc) (k : nat) : Qc :=
  saldo * taxa_mensal dados
  - imposto_espec dados modalidade (saldo * taxa_mensal dados) k.

(** Balance after [k] periods, starting from [c]. *)
Fixpoint saldo_espec (c : Qc) (dados : Dados) (modalidade : Modalidade) (k : nat) : Qc :=
  match k with
  | O => c
  | S j =>
      saldo_espec c dados modalidade j
      + liquido_espec dados modalidade (saldo_espec c dados modalidade j) (S j)
      + aporte_mensal dados
  end.

(** Net yield of period [k], for [k >= 1]. *)
Definition rendimento_liquido_espec (c : Qc) (dados : Dados) (modalidade : Modalidade)
    (k : nat) : Qc :=
  liquido_espec dados modalidade (saldo_espec c dados modalidade (k - 1)) k.

Definition media_aritmetica (l : list Qc) : Qc :=
  Num.sum l / Num.of_int (Z.of_nat (length l)).

(** Absolute error of the probe at a candidate capital. *)
Definition erro (dados : Dados) (modalidade : Modalidade) (valor : Qc) : Qc :=
  Qcabs (simular_rendimento_mensal valor dados modalidade - rendimento_desejado dados).

(** [menor] is the smallest probe error over the capitals of [log]. *)
Definition minimo_dos_erros (dados : Dados) (modalidade : Modalidade)
    (log : list Qc) (menor : Qc) : Prop :=
  (exists v, In v log /\ erro dados modalidade v = menor) /\
  (forall v, In v log -> menor <= erro dados modalidade v).

(** The tracked best candidate agrees with the capitals probed so far:
    nothing is tracked before the first probe; afterwards [melhor_valor] is
    one of them, [menor_diferenca] is its error, and no probed capital has
    a smaller one. *)
Definition rastreia (dados : Dados) (modalidade : Modalidade)
    (vistos : list Qc) (b : Busca) : Prop :=
  (vistos = [] /\ menor_diferenca b = None) \/
  (In (melhor_valor b) vistos /\
   menor_diferenca b = Some (erro dados modalidade (melhor_valor b)) /\
   forall v, In v vistos ->
     erro dados modalidade (melhor_valor b) <= erro dados modalidade v).

(** A validated reverse scenario.  The rate is the Selic monthly rate times
    the CDI percentage over 100: the form accepts a percentage up to 300 and
    the data manager an annual Selic up to 50%, so the monthly rate stays
    below [3 * (1.5^(1/12) - 1)], which is less than 0.1031. *)
Definition cenario_valido (dados : Dados) : Prop :=
  0 < rendimento_desejado dados /\
  (1 <= prazo_meses dados <= 600)%Z /\
  0 <= aporte_mensal dados /\
  0 < taxa_mensal dados /\
  taxa_mensal dados <= Q2Qc 0.1031.

(** Scenario B of the specification, and a scenario whose bisection uses
    all of its 50 iterations. *)
Definition cenario_b : Dados :=
  mkDados (Q2Qc 5000) 12 0 (Q2Qc 0.0105) true.

Definition cenario_longo : Dados :=
  mkDados (Num.of_int (2 ^ 60)) 1 0 (Q2Qc (1 # 64)) false.

(** A scenario whose seed estimate leaves the range of [float]: a rate of
    300% a month over 600 months, with a contribution and no tax, so that
    the power is [4.0 ** 600]. *)
Definition cenario_estouro : Dados :=
  mkDados (Num.of_int 5000) 600 1 (Num.of_int 3) false.

End Reverso.

(** ** The catalogue: [self.modalidades]

    A dictionary literal with distinct keys, kept in insertion order; the
    display text [descricao] of each entry is left out. *)

Definition modalidades : list (string * Modalidade) :=
  map (fun m => (nome m, m))
    [ mkModalidade "CDI 100%" (Q2Qc 100) true 0 Baixo;
      mkModalidade "CDI 102%" (Q2Qc 102) true 30 Baixo;
      mkModalidade "CDI 103%" (Q2Qc 103) true 30 Baixo;
      mkModalidade "CDI 105%" (Q2Qc 105) true 60 Baixo;
      mkModalidade "CDI 110%" (Q2Qc 110) true 90 Baixo;
      mkModalidade "CDI 115%" (Q2Qc 115) true 180 Baixo;
      mkModalidade "CDI 116%" (Q2Qc 116) true 180 Baixo;
      mkModalidade "CDI 120%" (Q2Qc 120) true 360 Baixo;
      mkModalidade "Poupança" (Q2Qc 70) false 0 Baixo;
      mkModalidade "Tesouro Selic" (Q2Qc 100) true 0 Baixo;
      mkModalidade "LCI/LCA" (Q2Qc 90) false 90 Baixo;
      mkModalidade "Fundos DI" (Q2Qc 95) true 30 Baixo;
      mkModalidade "Tesouro IPCA+" (Q2Qc 105) true 0 Medio;
      mkModalidade "CRI/CRA" (Q2Qc 110) false 180 Medio;
      mkModalidade "Debêntures" (Q2Qc 115) true 360 Medio;
      mkModalidade "Renda Variável" (Q2Qc 150) true 0 Alto;
      mkModalidade "Personalizado" (Q2Qc 105) true 90 Variavel ]%string.

(** [d.get(chave)]: [None] when the key is absent. *)
Fixpoint obter (chave : string) (d : list (string * Modalidade)) : option Modalidade :=
  match d with
  | [] => None
  | (k, v) :: resto => if String.eqb chave k then Some v else obter chave resto
  end.

(** [chave in d] *)
Definition contem (chave : string) (d : list (string * Modalidade)) : bool :=
  match obter chave d with
  | Some _ => true
  | None => false
  end.

(** ** Quick comparison: [comparacao_rapida]

    The values read from the form and the Selic rate of the data manager are
    the inputs; the loop is the one the method runs for each modality. *)

Record EstadoComparacao : Type := mkEstadoComparacao {
  c_saldo : Qc;
  c_meses : Z;
  c_total_ir : Qc
}.

(** [saldo < meta and meses < 600] *)
Definition continua_comparacao (meta : Qc) (c : EstadoComparacao) : bool :=
  Num.ltb (c_saldo c) meta && (c_meses c <? 600)%Z.

(** Body of the comparison's [while] loop. *)
Definition passo_comparacao (taxa_mensal aporte_mensal : Qc) (modalidade : Modalidade)
    (c : EstadoComparacao) : EstadoComparacao :=
  let rendimento := c_saldo c * taxa_mensal in
  let ir := if tem_ir modalidade then calcular_ir rendimento (c_meses c * 30) else 0 in
  let total_ir := c_total_ir c + ir in
  let saldo := c_saldo c + (rendimento - ir + aporte_mensal) in
  mkEstadoComparacao saldo (c_meses c + 1) total_ir.

Definition restante_comparacao (c : EstadoComparacao) : nat :=
  Z.to_nat (600 - c_meses c).
Arguments restante_comparacao : simpl never.

Equations? laco_comparacao (taxa_mensal aporte_mensal meta : Qc) (modalidade : Modalidade)
    (c : EstadoComparacao) : EstadoComparacao
  by wf (restante_comparacao c) lt :=
  laco_comparacao taxa_mensal aporte_mensal meta modalidade c
    with inspecionar (continua_comparacao meta c) => {
    | exist _ true _ =>
        laco_comparacao taxa_mensal aporte_mensal meta modalidade
          (passo_comparacao taxa_mensal aporte_mensal modalidade c)
    | exist _ false _ => c }.
Proof.
  match goal with
  | H : continua_comparacao _ _ = true |- _ =>
      unfold continua_comparacao in H; apply andb_true_iff in H;
      destruct H as [_ H]; apply Z.ltb_lt in H
  end.
  unfold restante_comparacao. cbn [passo_comparacao c_meses]. lia.
Qed.

(** One element of [resultados_comp]. *)
Record ResultadoComparacao : Type := mkResultadoComparacao {
  rc_nome : string;
  rc_meses : Z;
  rc_valor_final : Qc;
  rc_total_ir : Qc;
  rc_risco : Risco
}.

(** The simulation the comparison runs for one modality of the catalogue. *)
Definition simular_comparacao (valor_inicial aporte_mensal meta taxa_selic_mensal : Qc)
    (modalidade : Modalidade) : EstadoComparacao :=
  let taxa_mensal := taxa_selic_mensal * (percentual_cdi modalidade / Q2Qc 100) in
  laco_comparacao taxa_mensal aporte_mensal meta modalidade
    (mkEstadoComparacao valor_inicial 0 0).

(** Body of [for modalidade_nome in modalidades_nomes]. *)
Definition comparar_uma (valor_inicial aporte_mensal meta taxa_selic_mensal : Qc)
    (resultados_comp : list ResultadoComparacao) (modalidade_nome : string)
    : list ResultadoComparacao :=
  if contem modalidade_nome modalidades then
    match obter modalidade_nome modalidades with
    | Some modalidade =>
        let fim :=
          simular_comparacao valor_inicial aporte_mensal meta taxa_selic_mensal modalidade in
        resultados_comp ++
          [mkResultadoComparacao modalidade_nome (c_meses fim) (c_saldo fim)
             (c_total_ir fim) (risco modalidade)]
    | None => resultados_comp
    end
  else resultados_comp.

Definition comparacao_rapida (valor_inicial aporte_mensal meta taxa_selic_mensal : Qc)
    (modalidades_nomes : list string) : list ResultadoComparacao :=
  fold_left (comparar_uma valor_inicial aporte_mensal meta taxa_selic_mensal)
            modalidades_nomes [].

(** The comparison's loop state and the simulator's loop state carry the
    same balance and month count, and the comparison's running tax total is
    the sum of the taxes recorded so far. *)
Definition mesmo_estado (e : Estado) (c : EstadoComparacao) : Prop :=
  c_saldo c = e_saldo e /\
  c_meses c = e_meses e /\
  c_total_ir c = Num.sum (map ir (e_resultados e)).

(** ** Metrics of a simulation: [criar_grid_metricas_otimizado] *)

(** What the metric computations end in: the early [return] on an empty
    sequence, a division by zero, or the computed values. *)
Inductive Saida (A : Type) : Type :=
| SemResultados
| DivisaoPorZero
| Calculado (a : A).
Arguments SemResultados {A}.
Arguments DivisaoPorZero {A}.
Arguments Calculado {A} a.

Record Metricas : Type := mkMetricas {
  m_meses : Z;
  m_valor_final : Qc;
  m_total_investido : Qc;
  m_total_rendimento : Qc;
  m_total_ir : Qc;
  m_rentabilidade : Qc
}.

(** [resultados[-1]['saldo']] of a non-empty list. *)
Definition saldo_do_ultimo (primeiro : Registro) (resto : list Registro) : Qc :=
  saldo (last resto primeiro).

(** Lines 1230-1239 of [criar_grid_metricas_otimizado]. *)
Definition metricas_dashboard (dados : DadosNormal) (resultados : list Registro)
    : Saida Metricas :=
  match resultados with
  | [] => SemResultados
  | r :: rs =>
      let meses := Z.of_nat (length resultados) in
      let valor_final := saldo_do_ultimo r rs in
      let total_investido := valor_inicial dados + aporte_mensal dados * Num.of_int meses in
      let total_rendimento := Num.sum (map rendimento resultados) in
      let total_ir := Num.sum (map ir resultados) in
      if Qc_eq_dec total_investido 0 then DivisaoPorZero
      else
        Calculado
          (mkMetricas meses valor_final total_investido total_rendimento total_ir
             ((valor_final - total_investido) / total_investido * Q2Qc 100))
  end.

(** ** Freshness of the market data: [GerenciadorDados]

    A [datetime] is its number of microseconds on the time line and a
    [timedelta] a number of microseconds; [ultima_atualizacao] is [None]
    until the first successful update. *)

Module Frescor.

Definition minutos (n : Z) : Z := (n * 60 * 1000000)%Z.
Definition horas (n : Z) : Z := (n * 3600 * 1000000)%Z.

(** [self.intervalo_atualizacao = timedelta(hours=12)] *)
Definition intervalo_atualizacao : Z := horas 12.

(** [precisa_atualizar], with [datetime.now()] as [agora]. *)
Definition precisa_atualizar (ultima_atualizacao : option Z) (agora : Z) : bool :=
  match ultima_atualizacao with
  | None => true
  | Some ultima =>
      let tempo_decorrido := (agora - ultima)%Z in
      (intervalo_atualizacao <? tempo_decorrido)%Z
  end.

(** The entries of [TemaOtimizado.CORES] the status line uses. *)
Definition cor_aviso : string := "#d97706".
Definition cor_sucesso : string := "#16a34a".
Definition cor_info : string := "#0891b2".

(** [str(n)] for an [int]. *)
Definition str (n : Z) : string := NilZero.string_of_int (Z.to_int n).

(** [int(tempo_decorrido.total_seconds() // segundos)] *)
Definition unidades (tempo_decorrido segundos : Z) : Z :=
  (tempo_decorrido / (segundos * 1000000))%Z.

(** [obter_info_atualizacao], with [datetime.now()] as [agora]. *)
Definition obter_info_atualizacao (ultima_atualizacao : option Z) (agora : Z)
    : string * string :=
  match ultima_atualizacao with
  | None => ("Dados não atualizados"%string, cor_aviso)
  | Some ultima =>
      let tempo_decorrido := (agora - ultima)%Z in
      if (tempo_decorrido <? minutos 30)%Z then
        (("Atualizado há " ++ str (unidades tempo_decorrido 60) ++ " min")%string,
         cor_sucesso)
      else if (tempo_decorrido <? horas 2)%Z then
        (("Atualizado há " ++ str (unidades tempo_decorrido 3600) ++ "h")%string,
         cor_sucesso)
      else if (tempo_decorrido <? horas 12)%Z then
        (("Atualizado há " ++ str (unidades tempo_decorrido 3600) ++ "h")%string,
         cor_info)
      else ("Dados desatualizados"%string, cor_aviso)
  end.

End Frescor.

(** * Properties *)

(** ** Arithmetic of the numeric model *)

Module NumFacts.

Lemma ltb_true x y : Num.ltb x y = true <-> x < y.
Proof.
unfold Num.ltb. destruct (Qclt_le_dec x y) as [H | H]; split; intro K;
  try reflexivity; try discriminate; try assumption.
exfalso. exact (Qcle_not_lt _ _ H K).
Qed.

Lemma ltb_false x y : Num.ltb x y = false <-> y <= x.
Proof.
unfold Num.ltb. destruct (Qclt_le_dec x y) as [H | H]; split; intro K;
  try reflexivity; try discriminate; try assumption.
exfalso. exact (Qcle_not_lt _ _ K H).
Qed.

Lemma leb_true x y : Num.leb x y = true <-> x <= y.
Proof.
unfold Num.leb. destruct (Qclt_le_dec y x) as [H | H]; split; intro K;
  try reflexivity; try discriminate; try assumption.
exfalso. exact (Qcle_not_lt _ _ K H).
Qed.

Lemma leb_false x y : Num.leb x y = false <-> y < x.
Proof.
unfold Num.leb. destruct (Qclt_le_dec y x) as [H | H]; split; intro K;
  try reflexivity; try discriminate; try assumption.
exfalso. exact (Qcle_not_lt _ _ H K).
Qed.

Lemma this_plus (x y : Qc) : (this (x + y) == this x + this y)%Q.
Proof. apply Qred_correct. Qed.

Lemma this_mult (x y : Qc) : (this (x * y) == this x * this y)%Q.
Proof. apply Qred_correct. Qed.

Lemma this_opp (x : Qc) : (this (- x) == - this x)%Q.
Proof. apply Qred_correct. Qed.

Lemma this_minus (x y : Qc) : (this (x - y) == this x - this y)%Q.
Proof. unfold Qcminus. rewrite this_plus, this_opp. reflexivity. Qed.

Lemma this_Q2Qc (q : Q) : (this (Q2Qc q) == q)%Q.
Proof. apply Qred_correct. Qed.

End NumFacts.

(** Order and equality goals over [Qc] are sent to [Q], where linear
    arithmetic is decided. *)
Ltac qc_to_q :=
  try apply Qc_is_canon;
  unfold Qcle, Qclt in *;
  repeat match goal with
         | H : context [this (?x + ?y)] |- _ => rewrite (NumFacts.this_plus x y) in H
         | H : context [this (?x - ?y)] |- _ => rewrite (NumFacts.this_minus x y) in H
         | H : context [this (?x * ?y)] |- _ => rewrite (NumFacts.this_mult x y) in H
         | H : context [this (- ?x)] |- _ => rewrite (NumFacts.this_opp x) in H
         | H : context [this (Q2Qc ?q)] |- _ => rewrite (NumFacts.this_Q2Qc q) in H
         | |- context [this (?x + ?y)] => rewrite (NumFacts.this_plus x y)
         | |- context [this (?x - ?y)] => rewrite (NumFacts.this_minus x y)
         | |- context [this (?x * ?y)] => rewrite (NumFacts.this_mult x y)
         | |- context [this (- ?x)] => rewrite (NumFacts.this_opp x)
         | |- context [this (Q2Qc ?q)] => rewrite (NumFacts.this_Q2Qc q)
         end.

Ltac qc_lra := qc_to_q; lra.

Ltac qc_decide := vm_compute; first [reflexivity | discriminate].

(** ** Tax model *)

Section TaxModel.

Variables (g : Qc) (d : Z).

Lemma calcular_ir_nao_positivo : g <= 0 -> calcular_ir g d = 0.
Proof.
  intro H. unfold calcular_ir.
  apply NumFacts.leb_true in H. now rewrite H.
Qed.

Lemma calcular_ir_positivo : 0 < g -> calcular_ir g d = g * aliquota_da_tabela d.
Proof.
  intro H. unfold calcular_ir.
  apply NumFacts.leb_false in H. rewrite H.
  unfold aliquota_da_tabela, TABELA_IR, percorrer, dentro.
  destruct (d <=? 180)%Z; [reflexivity |].
  destruct (d <=? 360)%Z; [reflexivity |].
  destruct (d <=? 720)%Z; reflexivity.
Qed.

Lemma aliquota_limites :
  Q2Qc 0.15 <= aliquota_da_tabela d /\ aliquota_da_tabela d <= Q2Qc 0.225.
Proof.
  unfold aliquota_da_tabela.
  destruct (d <=? 180)%Z; [split; qc_lra |].
  destruct (d <=? 360)%Z; [split; qc_lra |].
  destruct (d <=? 720)%Z; split; qc_lra.
Qed.

End TaxModel.

Lemma aliquota_decrescente d1 d2 :
  (d1 <= d2)%Z -> aliquota_da_tabela d2 <= aliquota_da_tabela d1.
Proof.
  intro H. unfold aliquota_da_tabela.
  destruct (Z.leb_spec d1 180), (Z.leb_spec d2 180); try lia; try qc_lra;
  destruct (Z.leb_spec d1 360), (Z.leb_spec d2 360); try lia; try qc_lra;
  destruct (Z.leb_spec d1 720), (Z.leb_spec d2 720); try lia; qc_lra.
Qed.

Lemma calcular_ir_limites g d :
  0 < g -> g * Q2Qc 0.15 <= calcular_ir g d /\ calcular_ir g d <= g * Q2Qc 0.225.
Proof.
  intro H. rewrite (calcular_ir_positivo g d H).
  destruct (aliquota_limites d) as [L U].
  split.
  - rewrite (Qcmult_comm g (Q2Qc 0.15)), (Qcmult_comm g (aliquota_da_tabela d)).
    apply Qcmult_le_compat_r; [exact L | now apply Qclt_le_weak].
  - rewrite (Qcmult_comm g (Q2Qc 0.225)), (Qcmult_comm g (aliquota_da_tabela d)).
    apply Qcmult_le_compat_r; [exact U | now apply Qclt_le_weak].
Qed.

(** C3. The withheld tax is zero on a non-positive gain; on a positive gain
    it is the gain times the rate of the first bracket of the table
    (180 days: 22.5%, 360: 20%, 720: 17.5%, beyond: 15%) whose inclusive
    bound is at least the day count; so 1000 held 180 days pays 225 and held
    181 days pays 200. *)
Theorem calcular_ir_segue_tabela (g : Qc) (d : Z) :
  (g <= 0 -> calcular_ir g d = 0) /\
  (0 < g -> calcular_ir g d = g * aliquota_da_tabela d) /\
  calcular_ir (Q2Qc 1000) 180 = Q2Qc 225 /\
  calcular_ir (Q2Qc 1000) 181 = Q2Qc 200.
Proof.
  split; [apply calcular_ir_nao_positivo |].
  split; [apply calcular_ir_positivo |].
  split; apply Qc_is_canon; reflexivity.
Qed.

Lemma calcular_ir_segue_tabela_witness :
  calcular_ir (Q2Qc (-5)) 200 = 0 /\
  calcular_ir (Q2Qc 40) 400 = Q2Qc 40 * aliquota_da_tabela 400.
Proof.
  destruct (calcular_ir_segue_tabela (Q2Qc (-5)) 200) as [Hneg _].
  destruct (calcular_ir_segue_tabela (Q2Qc 40) 400) as [_ [Hpos _]].
  split.
  - apply Hneg. vm_compute. discriminate.
  - apply Hpos. vm_compute. reflexivity.
Defined.

(** C8. For a fixed gain, the withheld tax does not grow with the holding
    period: if [0 <= d1 <= d2] then the tax at [d2] days is at most the tax
    at [d1] days. *)
Theorem calcular_ir_monotono (g : Qc) (d1 d2 : Z) :
  (0 <= d1)%Z -> (d1 <= d2)%Z -> calcular_ir g d2 <= calcular_ir g d1.
Proof.
  intros _ H.
  destruct (Qclt_le_dec 0 g) as [Hg | Hg].
  - rewrite (calcular_ir_positivo g d1 Hg), (calcular_ir_positivo g d2 Hg).
    rewrite (Qcmult_comm g (aliquota_da_tabela d2)), (Qcmult_comm g (aliquota_da_tabela d1)).
    apply Qcmult_le_compat_r; [now apply aliquota_decrescente | now apply Qclt_le_weak].
  - rewrite (calcular_ir_nao_positivo g d1 Hg), (calcular_ir_nao_positivo g d2 Hg).
    apply Qcle_refl.
Qed.

Lemma calcular_ir_monotono_witness :
  calcular_ir (Q2Qc 1000) 181 <= calcular_ir (Q2Qc 1000) 180.
Proof.
  apply (calcular_ir_monotono (Q2Qc 1000) 180 181); lia.
Defined.

Lemma liquido_positivo g considera modalidade meses :
  0 < g -> 0 < g - ir_do_periodo considera modalidade g meses.
Proof.
  intro H. unfold ir_do_periodo.
  destruct (considera && tem_ir modalidade).
  - destruct (calcular_ir_limites g (meses * 30) H) as [_ U]. qc_lra.
  - qc_lra.
Qed.

(** C10. On a positive gain, for any day count (negative ones included), the
    withheld tax lies between 15% and 22.5% of the gain; it is therefore
    positive and smaller than the gain, and the net yield of a period with a
    positive gross yield is positive. *)
Theorem calcular_ir_entre_15_e_22_5 (g : Qc) (d : Z) :
  0 < g ->
  Q2Qc 0.15 * g <= calcular_ir g d /\
  calcular_ir g d <= Q2Qc 0.225 * g /\
  0 < calcular_ir g d /\
  calcular_ir g d < g /\
  (forall considera modalidade meses,
      0 < g - ir_do_periodo considera modalidade g meses).
Proof.
  intro H. destruct (calcular_ir_limites g d H) as [L U].
  repeat split; try qc_lra.
  intros. now apply liquido_positivo.
Qed.

Lemma calcular_ir_entre_15_e_22_5_witness :
  Q2Qc 0.15 * Q2Qc 1000 <= calcular_ir (Q2Qc 1000) (-7) /\
  calcular_ir (Q2Qc 1000) (-7) < Q2Qc 1000.
Proof.
  assert (H : 0 < Q2Qc 1000) by (vm_compute; reflexivity).
  destruct (calcular_ir_entre_15_e_22_5 (Q2Qc 1000) (-7) H) as [L [_ [_ [U _]]]].
  split; assumption.
Defined.

(** ** Forward simulator *)

Section Forward.

Variables (dados : DadosNormal) (modalidade : Modalidade).

Lemma laco_eq e :
  laco dados modalidade e =
  if continua dados e then laco dados modalidade (passo dados modalidade e) else e.
Proof.
  assert (G : forall b (H : continua dados e = b),
             laco_unfold_clause_1 dados modalidade e (exist _ b H) =
             if b then laco dados modalidade (passo dados modalidade e) else e)
    by (intros [] H; reflexivity).
  rewrite laco_equation_1. unfold inspecionar. apply G.
Qed.

Lemma iterar_passo k e :
  iterar dados modalidade k (passo dados modalidade e) = passo dados modalidade (iterar dados modalidade k e).
Proof.
  induction k as [| k IH]; cbn; [reflexivity | now rewrite IH].
Qed.

Lemma iterar_meses k e : e_meses (iterar dados modalidade k e) = (e_meses e + Z.of_nat k)%Z.
Proof.
  induction k as [| k IH]; cbn [iterar passo e_meses]; [lia | rewrite IH; lia].
Qed.

(** The loop returns the first state of the iteration that fails the
    guard. *)
Lemma laco_primeira_parada e :
  exists j,
    laco dados modalidade e = iterar dados modalidade j e /\
    continua dados (iterar dados modalidade j e) = false /\
    forall i, (i < j)%nat -> continua dados (iterar dados modalidade i e) = true.
Proof.
  remember (restante e) as n eqn:Hn.
  revert e Hn. induction n as [n IH] using lt_wf_ind. intros e Hn.
  rewrite laco_eq. destruct (continua dados e) eqn:Hc.
  - assert (Hlt : (restante (passo dados modalidade e) < n)%nat).
    { subst n. unfold continua in Hc. apply andb_true_iff in Hc.
      destruct Hc as [_ Hc]. apply Z.ltb_lt in Hc.
      unfold restante. cbn [passo e_meses]. lia. }
    destruct (IH _ Hlt (passo dados modalidade e) eq_refl) as [j [E [F T]]].
    exists (S j). rewrite iterar_passo in E, F.
    split; [exact E | split; [exact F |]].
    intros [| i] Hi; [exact Hc |].
    cbn [iterar]. rewrite <- iterar_passo. apply T. lia.
  - exists 0%nat. cbn [iterar].
    split; [reflexivity | split; [exact Hc | intros i Hi; lia]].
Qed.

Lemma saldo_apos_S k :
  saldo_apos dados modalidade (S k) = saldo (registro_do_periodo dados modalidade k).
Proof.
  unfold saldo_apos, registro_do_periodo. cbn [iterar passo e_saldo saldo].
  rewrite iterar_meses. cbn [estado_inicial e_meses]. reflexivity.
Qed.

Lemma periodos_S k :
  periodos dados modalidade (S k) =
  periodos dados modalidade k ++ [registro_do_periodo dados modalidade k].
Proof.
  unfold periodos, registro_do_periodo, saldo_apos.
  cbn [iterar passo e_resultados].
  rewrite iterar_meses. cbn [estado_inicial e_meses]. reflexivity.
Qed.

Lemma periodos_map k :
  periodos dados modalidade k = map (registro_do_periodo dados modalidade) (seq 0 k).
Proof.
  induction k as [| k IH]; [reflexivity |].
  rewrite periodos_S, IH, seq_S, map_app. reflexivity.
Qed.

Lemma periodos_length k : length (periodos dados modalidade k) = k.
Proof. rewrite periodos_map, length_map, length_seq. reflexivity. Qed.

Lemma periodos_nth k i r :
  nth_error (periodos dados modalidade k) i = Some r ->
  (i < k)%nat /\ r = registro_do_periodo dados modalidade i.
Proof.
  intro H.
  assert (Hi : (i < k)%nat).
  { rewrite <- (periodos_length k). apply nth_error_Some. congruence. }
  split; [exact Hi |].
  rewrite periodos_map in H.
  rewrite (nth_error_map (registro_do_periodo dados modalidade) i (seq 0 k)) in H.
  rewrite (nth_error_seq 0 k i) in H.
  destruct (Nat.ltb_spec i k) as [_ | Hge]; [| lia].
  cbn in H. congruence.
Qed.

Lemma periodos_prefixo k n :
  (k <= n)%nat -> firstn k (periodos dados modalidade n) = periodos dados modalidade k.
Proof.
  induction n as [| n IH]; intro H.
  - replace k with 0%nat by lia. reflexivity.
  - destruct (Nat.eq_dec k (S n)) as [-> | Hk].
    + rewrite <- (periodos_length (S n)) at 1. apply firstn_all.
    + rewrite periodos_S, firstn_app, periodos_length.
      replace (k - n)%nat with 0%nat by lia.
      cbn [firstn]. rewrite app_nil_r. apply IH. lia.
Qed.

Lemma continua_iterar k :
  continua dados (iterar dados modalidade k (estado_inicial dados)) =
  Num.ltb (saldo_apos dados modalidade k) (meta dados) && (Z.of_nat k <? 600)%Z.
Proof.
  unfold continua, saldo_apos. rewrite iterar_meses. reflexivity.
Qed.

Lemma parou_periodos k :
  parou dados (periodos dados modalidade k) <->
  ((0 < k)%nat /\ meta dados <= saldo_apos dados modalidade k) \/ k = 600%nat.
Proof.
  unfold parou. rewrite periodos_length.
  destruct k as [| k].
  - cbn. split; intros [H | H].
    + destruct H as [r [H _]]. discriminate.
    + now right.
    + destruct H as [H _]. lia.
    + now right.
  - rewrite periodos_S, map_app. cbn [map]. rewrite last_last, saldo_apos_S.
    split; intros [H | H].
    + left. destruct H as [r [E H]]. injection E as <-. split; [lia | exact H].
    + now right.
    + left. exists (registro_do_periodo dados modalidade k).
      split; [reflexivity | apply H].
    + now right.
Qed.

(** Number of periods the loop runs, with the facts that pin it down. *)
Lemma simular_investimento_periodos :
  exists n,
    simular_investimento dados modalidade = periodos dados modalidade n /\
    (n <= 600)%nat /\
    continua dados (iterar dados modalidade n (estado_inicial dados)) = false /\
    forall i, (i < n)%nat -> continua dados (iterar dados modalidade i (estado_inicial dados)) = true.
Proof.
  destruct (laco_primeira_parada (estado_inicial dados)) as [j [E [F T]]].
  exists j. unfold simular_investimento, periodos. rewrite E.
  split; [reflexivity |]. split; [| split; assumption].
  destruct (Nat.le_gt_cases j 600) as [H | H]; [exact H |].
  specialize (T 600%nat H). rewrite continua_iterar in T.
  apply andb_true_iff in T. destruct T as [_ T]. apply Z.ltb_lt in T. lia.
Qed.

End Forward.

Section ForwardClaims.

Variables (dados : DadosNormal) (modalidade : Modalidade).

Lemma periodos_nth_lt n i :
  (i < n)%nat ->
  nth_error (periodos dados modalidade n) i = Some (registro_do_periodo dados modalidade i).
Proof.
  intro H. rewrite periodos_map.
  rewrite (nth_error_map (registro_do_periodo dados modalidade) i (seq 0 n)).
  rewrite (nth_error_seq 0 n i).
  destruct (Nat.ltb_spec i n); [reflexivity | lia].
Qed.

Lemma saldo_anterior_periodos n i :
  (i < n)%nat ->
  saldo_anterior dados (periodos dados modalidade n) i = saldo_apos dados modalidade i.
Proof.
  intro H. destruct i as [| j]; [reflexivity |].
  cbn [saldo_anterior]. rewrite periodos_nth_lt by lia.
  symmetry. apply saldo_apos_S.
Qed.

Lemma simular_investimento_no_maximo_600 :
  (length (simular_investimento dados modalidade) <= 600)%nat.
Proof.
  destruct (simular_investimento_periodos dados modalidade) as [n [E [L _]]].
  rewrite E, periodos_length. exact L.
Qed.

End ForwardClaims.

(** C1. In the sequence returned by the forward simulator for a scenario with
    positive initial capital, non-negative contribution, target above the
    initial capital and positive periodic rate, every record's balance is the
    previous balance (the initial capital for the first record) plus the
    record's gross yield, minus its withheld tax, plus its contribution; the
    stored gross yield is the previous balance times the periodic rate and
    the stored contribution is the monthly contribution. *)
Theorem saldo_segue_recorrencia (dados : DadosNormal) (modalidade : Modalidade)
    (i : nat) (r : Registro) :
  0 < valor_inicial dados ->
  0 <= aporte_mensal dados ->
  valor_inicial dados < meta dados ->
  0 < taxa_mensal dados ->
  nth_error (simular_investimento dados modalidade) i = Some r ->
  saldo r =
    saldo_anterior dados (simular_investimento dados modalidade) i
    + rendimento r - ir r + aporte r /\
  rendimento r =
    saldo_anterior dados (simular_investimento dados modalidade) i * taxa_mensal dados /\
  aporte r = aporte_mensal dados.
Proof.
  intros _ _ _ _ H.
  destruct (simular_investimento_periodos dados modalidade) as [n [E _]].
  rewrite E in *.
  destruct (periodos_nth dados modalidade n i r H) as [Hi ->].
  rewrite (saldo_anterior_periodos dados modalidade n i Hi).
  unfold registro_do_periodo. cbn [saldo rendimento ir aporte].
  split; [ring | split; reflexivity].
Qed.

Lemma saldo_segue_recorrencia_witness :
  saldo (registro_do_periodo cenario_a cdi_105 0) =
    valor_inicial cenario_a
    + rendimento (registro_do_periodo cenario_a cdi_105 0)
    - ir (registro_do_periodo cenario_a cdi_105 0)
    + aporte (registro_do_periodo cenario_a cdi_105 0).
Proof.
  refine (proj1 (saldo_segue_recorrencia cenario_a cdi_105 0
                   (registro_do_periodo cenario_a cdi_105 0) _ _ _ _ _)).
  - qc_decide.
  - qc_decide.
  - qc_decide.
  - qc_decide.
  - vm_compute. reflexivity.
Defined.

(** C2. For a scenario with positive initial capital, target above it and
    non-negative contribution, the returned sequence is the shortest prefix
    of the period iteration whose last record has reached the target or
    whose length is 600: no earlier record reaches the target, and when the
    target is reached within 600 periods the final balance is at least the
    target and the length is the least period count at which that holds. *)
Theorem simular_investimento_menor_prefixo (dados : DadosNormal) (modalidade : Modalidade) :
  0 < valor_inicial dados ->
  valor_inicial dados < meta dados ->
  0 <= aporte_mensal dados ->
  exists n,
    (forall N, (n <= N)%nat ->
       simular_investimento dados modalidade = firstn n (periodos dados modalidade N)) /\
    length (simular_investimento dados modalidade) = n /\
    (1 <= n <= 600)%nat /\
    parou dados (simular_investimento dados modalidade) /\
    (forall k, (k < n)%nat -> ~ parou dados (periodos dados modalidade k)) /\
    (forall i r, (S i < n)%nat ->
       nth_error (simular_investimento dados modalidade) i = Some r ->
       saldo r < meta dados) /\
    ((exists k, (k <= 600)%nat /\ meta dados <= saldo_apos dados modalidade k) ->
     meta dados <= saldo_apos dados modalidade n /\
     last (map saldo (simular_investimento dados modalidade)) 0 =
       saldo_apos dados modalidade n /\
     forall k, meta dados <= saldo_apos dados modalidade k -> (n <= k)%nat).
Proof.
  intros _ Hmeta _.
  destruct (simular_investimento_periodos dados modalidade) as [n [E [L [F T]]]].
  assert (Hcont : forall k, continua dados (iterar dados modalidade k (estado_inicial dados)) = true ->
                            saldo_apos dados modalidade k < meta dados /\ (k < 600)%nat).
  { intros k Hk. rewrite continua_iterar in Hk. apply andb_true_iff in Hk.
    destruct Hk as [A B]. apply NumFacts.ltb_true in A. apply Z.ltb_lt in B.
    split; [exact A | lia]. }
  assert (Hstop : forall k, continua dados (iterar dados modalidade k (estado_inicial dados)) = false ->
                            meta dados <= saldo_apos dados modalidade k \/ (600 <= k)%nat).
  { intros k Hk. rewrite continua_iterar in Hk. apply andb_false_iff in Hk.
    destruct Hk as [A | B].
    - left. now apply NumFacts.ltb_false.
    - right. apply Z.ltb_ge in B. lia. }
  assert (Hpos : (1 <= n)%nat).
  { destruct n as [| n]; [| lia]. exfalso.
    destruct (Hstop 0%nat F) as [A | A]; [| lia].
    exact (Qcle_not_lt _ _ A Hmeta). }
  assert (Hreach : forall k, meta dados <= saldo_apos dados modalidade k -> (n <= k)%nat).
  { intros k Hk. destruct (Nat.le_gt_cases n k) as [A | A]; [exact A | exfalso].
    destruct (Hcont k (T k A)) as [B _]. exact (Qcle_not_lt _ _ Hk B). }
  exists n. rewrite E.
  split; [intros N HN; symmetry; now apply periodos_prefixo |].
  split; [apply periodos_length |].
  split; [lia |].
  split.
  { apply parou_periodos. destruct (Hstop n F) as [A | A].
    - left. split; [lia | exact A].
    - right. lia. }
  split.
  { intros k Hk Hp. apply parou_periodos in Hp.
    destruct (Hcont k (T k Hk)) as [A B].
    destruct Hp as [[_ C] | C]; [exact (Qcle_not_lt _ _ C A) | lia]. }
  split.
  { intros i r Hi Hr.
    destruct (periodos_nth dados modalidade n i r Hr) as [_ ->].
    rewrite <- saldo_apos_S. apply Hcont. apply T. exact Hi. }
  intros [k [Hk Hm]].
  assert (Hn : meta dados <= saldo_apos dados modalidade n).
  { destruct (Hstop n F) as [A | A]; [exact A |].
    pose proof (Hreach k Hm). replace n with k by lia. exact Hm. }
  split; [exact Hn |]. split; [| exact Hreach].
  destruct n as [| n]; [lia |].
  rewrite periodos_S, map_app. cbn [map]. rewrite last_last.
  symmetry. apply saldo_apos_S.
Qed.

Lemma simular_investimento_menor_prefixo_witness :
  exists n,
    length (simular_investimento cenario_a cdi_105) = n /\
    parou cenario_a (simular_investimento cenario_a cdi_105) /\
    (forall k, (k < n)%nat -> ~ parou cenario_a (periodos cenario_a cdi_105 k)).
Proof.
  destruct (simular_investimento_menor_prefixo cenario_a cdi_105)
    as [n [_ [A [_ [B [C _]]]]]].
  - qc_decide.
  - qc_decide.
  - qc_decide.
  - exists n. split; [exact A | split; [exact B | exact C]].
Defined.

(** C9. Called with an initial capital that already is at or above the
    target, the forward simulator returns no record: the loop guard fails
    before the first period. *)
Theorem simular_investimento_meta_ja_atingida (dados : DadosNormal) (modalidade : Modalidade) :
  meta dados <= valor_inicial dados ->
  simular_investimento dados modalidade = [].
Proof.
  intro H. unfold simular_investimento. rewrite laco_eq.
  unfold continua. cbn [estado_inicial e_saldo e_meses].
  apply NumFacts.ltb_false in H. rewrite H. reflexivity.
Qed.

Lemma simular_investimento_meta_ja_atingida_witness :
  simular_investimento
    (mkDadosNormal (Q2Qc 50000) (Q2Qc 2500) (Q2Qc 50000) (Q2Qc 0.0105) true) cdi_105 = [].
Proof.
  apply simular_investimento_meta_ja_atingida. qc_decide.
Defined.

(** ** The periodic-yield probe *)

Section Probe.

Import Reverso.

Variables (c : Qc) (dados : Dados) (modalidade : Modalidade).

Lemma imposto_espec_codigo bruto j :
  ir_do_periodo (considerar_ir dados) modalidade bruto (Z.of_nat j) =
  imposto_espec dados modalidade bruto (S j).
Proof.
  unfold ir_do_periodo, imposto_espec.
  replace (Z.of_nat (S j) - 1)%Z with (Z.of_nat j) by lia. reflexivity.
Qed.

(** State of the probe's loop after [n] months. *)
Lemma laco_sonda_n n :
  fold_left (passo_sonda dados modalidade) (map Z.of_nat (seq 0 n))
            (mkEstadoSonda c []) =
  mkEstadoSonda (saldo_espec c dados modalidade n)
                (map (rendimento_liquido_espec c dados modalidade) (seq 1 n)).
Proof.
  induction n as [| n IH]; [reflexivity |].
  rewrite seq_S, map_app, fold_left_app, IH.
  cbn [map fold_left Nat.add]. unfold passo_sonda. cbn [s_saldo s_rendimentos].
  rewrite imposto_espec_codigo. f_equal.
  - cbn [saldo_espec]. unfold liquido_espec. ring.
  - rewrite seq_S, map_app. cbn [map]. f_equal. f_equal.
    unfold rendimento_liquido_espec.
    replace (1 + n)%nat with (S n) by lia.
    replace (S n - 1)%nat with n by lia. reflexivity.
Qed.

Lemma ultimos_map_seq (f : nat -> Qc) u n :
  (u <= n)%nat ->
  Num.ultimos u (map f (seq 1 n)) = map f (seq (n - u + 1) u).
Proof.
  intro H. unfold Num.ultimos.
  rewrite length_map, length_seq, skipn_map, skipn_seq.
  f_equal. f_equal; lia.
Qed.

End Probe.

(** C4. For a non-negative initial capital and a horizon between 1 and 600
    months, the probe runs exactly [prazo_meses] periods from that capital,
    never stopping early: period [k] accrues the balance times the periodic
    rate, is taxed at [(k - 1) * 30] elapsed days when tax applies, and adds
    net yield and contribution to the balance; the probe returns the
    arithmetic mean of the net yields of the last [min 3 prazo_meses]
    periods. *)
Theorem sonda_simula_prazo_inteiro (c : Qc) (dados : Reverso.Dados) (modalidade : Modalidade) :
  0 <= c ->
  (1 <= Reverso.prazo_meses dados <= 600)%Z ->
  let n := Z.to_nat (Reverso.prazo_meses dados) in
  let fim := Reverso.laco_sonda c dados modalidade in
  length (Reverso.s_rendimentos fim) = n /\
  Reverso.s_saldo fim = Reverso.saldo_espec c dados modalidade n /\
  (forall k, (1 <= k <= n)%nat ->
     nth_error (Reverso.s_rendimentos fim) (k - 1) =
       Some (Reverso.rendimento_liquido_espec c dados modalidade k)) /\
  Reverso.simular_rendimento_mensal c dados modalidade =
    Reverso.media_aritmetica
      (map (Reverso.rendimento_liquido_espec c dados modalidade)
           (seq (n - Nat.min 3 n + 1) (Nat.min 3 n))).
Proof.
  intros _ Hp n fim.
  assert (Hfim : fim = Reverso.mkEstadoSonda
                         (Reverso.saldo_espec c dados modalidade n)
                         (map (Reverso.rendimento_liquido_espec c dados modalidade) (seq 1 n))).
  { subst fim. unfold Reverso.laco_sonda, Num.range. apply laco_sonda_n. }
  assert (Hn : (1 <= n)%nat) by (subst n; lia).
  split; [rewrite Hfim; cbn [Reverso.s_rendimentos]; now rewrite length_map, length_seq |].
  split; [rewrite Hfim; reflexivity |].
  split.
  - intros k Hk. rewrite Hfim. cbn [Reverso.s_rendimentos].
    rewrite nth_error_map, nth_error_seq.
    destruct (Nat.ltb_spec (k - 1) n); [| lia].
    cbn [option_map]. do 2 f_equal. lia.
  - unfold Reverso.simular_rendimento_mensal. fold fim. rewrite Hfim.
    cbn [Reverso.s_rendimentos].
    destruct (map (Reverso.rendimento_liquido_espec c dados modalidade) (seq 1 n))
      as [| x l] eqn:El.
    + apply (f_equal (@length Qc)) in El.
      rewrite length_map, length_seq in El. cbn in El. lia.
    + rewrite <- El. rewrite length_map, length_seq.
      rewrite ultimos_map_seq by lia.
      unfold Reverso.media_aritmetica. now rewrite length_map, length_seq.
Qed.

Lemma sonda_simula_prazo_inteiro_witness :
  length (Reverso.s_rendimentos
            (Reverso.laco_sonda (Q2Qc 476190) Reverso.cenario_b cdi_105)) = 12%nat /\
  Reverso.simular_rendimento_mensal (Q2Qc 476190) Reverso.cenario_b cdi_105 =
    Reverso.media_aritmetica
      (map (Reverso.rendimento_liquido_espec (Q2Qc 476190) Reverso.cenario_b cdi_105)
           [10; 11; 12]%nat).
Proof.
  destruct (sonda_simula_prazo_inteiro (Q2Qc 476190) Reverso.cenario_b cdi_105)
    as [A [_ [_ B]]].
  - qc_decide.
  - cbn. lia.
  - split; [exact A | exact B].
Defined.

(** ** Reverse solver *)

Section Solver.

Import Reverso.

Variables (dados : Dados) (modalidade : Modalidade).

Lemma fator_ir_positivo : 0 < fator_ir dados modalidade.
Proof.
  unfold fator_ir. destruct (considerar_ir dados && tem_ir modalidade).
  - assert (H1 : 0 < 1) by qc_decide.
    destruct (calcular_ir_limites 1 (prazo_meses dados * 30) H1) as [_ U].
    qc_lra.
  - qc_decide.
Qed.

Lemma taxa_liquida_positiva :
  0 < taxa_mensal dados -> 0 < taxa_liquida dados modalidade.
Proof.
  intro H. unfold taxa_liquida.
  replace 0 with (0 * fator_ir dados modalidade) by ring.
  apply Qcmult_lt_compat_r; [apply fator_ir_positivo | exact H].
Qed.

Lemma estimativa_inicial_definida :
  0 < taxa_mensal dados -> prazo_meses dados <> 0%Z ->
  semente_transborda dados modalidade = false ->
  exists est, estimativa_inicial dados modalidade = inr est.
Proof.
  intros Ht Hp Hs. unfold estimativa_inicial.
  pose proof (taxa_liquida_positiva Ht) as Hl.
  apply NumFacts.leb_false in Hl. rewrite Hl.
  unfold semente_transborda in Hs.
  destruct (Num.ltb 0 (aporte_mensal dados)); [| eauto].
  destruct (Num.ltb 0 (taxa_liquida dados modalidade)); [| eauto].
  cbn [andb] in Hs. cbv zeta. rewrite Hs.
  apply Z.eqb_neq in Hp. rewrite Hp. eauto.
Qed.

Lemma estimativa_inicial_estouro :
  0 < taxa_mensal dados ->
  semente_transborda dados modalidade = true ->
  estimativa_inicial dados modalidade = inl OverflowError.
Proof.
  intros Ht Hs. unfold estimativa_inicial.
  pose proof (taxa_liquida_positiva Ht) as Hl.
  pose proof Hl as Hl'. apply NumFacts.leb_false in Hl. apply NumFacts.ltb_true in Hl'.
  unfold semente_transborda in Hs. apply andb_true_iff in Hs. destruct Hs as [Ha Hs].
  rewrite Hl, Ha, Hl'. cbv zeta. now rewrite Hs.
Qed.

Lemma fator_ir_no_maximo_1 : fator_ir dados modalidade <= 1.
Proof.
  unfold fator_ir. destruct (considerar_ir dados && tem_ir modalidade).
  - assert (H1 : 0 < 1) by qc_decide.
    destruct (calcular_ir_limites 1 (prazo_meses dados * 30) H1) as [L _].
    set (t := calcular_ir 1 (prazo_meses dados * 30)) in *. qc_lra.
  - apply Qcle_refl.
Qed.

Lemma taxa_liquida_no_maximo :
  0 <= taxa_mensal dados -> taxa_liquida dados modalidade <= taxa_mensal dados.
Proof.
  intro H. unfold taxa_liquida.
  replace (taxa_mensal dados) with (1 * taxa_mensal dados) at 2 by ring.
  rewrite (Qcmult_comm (taxa_mensal dados)).
  apply Qcmult_le_compat_r; [apply fator_ir_no_maximo_1 | exact H].
Qed.

Lemma potencia_monotona (a b : Qc) (n : nat) :
  0 <= a -> a <= b -> 0 <= Qcpower a n /\ Qcpower a n <= Qcpower b n.
Proof.
  intros Ha Hab. induction n as [| n [IH0 IH1]]; cbn [Qcpower].
  - split; [qc_decide | apply Qcle_refl].
  - assert (Hb : 0 <= b) by (apply Qcle_trans with a; assumption).
    split.
    + replace 0 with (0 * Qcpower a n) by ring. now apply Qcmult_le_compat_r.
    + apply Qcle_trans with (b * Qcpower a n).
      * now apply Qcmult_le_compat_r.
      * rewrite (Qcmult_comm b (Qcpower a n)), (Qcmult_comm b (Qcpower b n)).
        now apply Qcmult_le_compat_r.
Qed.

Lemma potencia_crescente (b : Qc) (n m : nat) :
  1 <= b -> (n <= m)%nat -> Qcpower b n <= Qcpower b m.
Proof.
  intros Hb Hnm. induction Hnm as [| m Hnm IH]; [apply Qcle_refl |].
  apply Qcle_trans with (Qcpower b m); [exact IH |].
  cbn [Qcpower].
  assert (H0 : 0 <= Qcpower b m).
  { apply (potencia_monotona b b m); [| apply Qcle_refl].
    apply Qcle_trans with 1; [qc_decide | exact Hb]. }
  replace (Qcpower b m) with (1 * Qcpower b m) at 1 by ring.
  now apply Qcmult_le_compat_r.
Qed.

(** A validated scenario keeps the power of the seed estimate in range. *)
Lemma cenario_valido_sem_estouro :
  cenario_valido dados -> semente_transborda dados modalidade = false.
Proof.
  intros [_ [Hp [_ [Ht Hc]]]].
  unfold semente_transborda. apply andb_false_iff. right.
  unfold Num.transborda. apply NumFacts.ltb_false.
  pose proof (taxa_liquida_positiva Ht) as Hl.
  pose proof (taxa_liquida_no_maximo (Qclt_le_weak _ _ Ht)) as Hu.
  set (tl := taxa_liquida dados modalidade) in *.
  assert (H2 : 1 + tl <= Q2Qc 2) by qc_lra.
  assert (H0 : 0 <= 1 + tl) by qc_lra.
  unfold Num.pow. replace (0 <=? prazo_meses dados)%Z with true
    by (symmetry; apply Z.leb_le; lia).
  destruct (potencia_monotona (1 + tl) (Q2Qc 2) (Z.to_nat (prazo_meses dados)) H0 H2)
    as [P0 P1].
  rewrite (Qcabs_pos _ P0).
  apply Qcle_trans with (Qcpower (Q2Qc 2) (Z.to_nat (prazo_meses dados)));
    [exact P1 |].
  apply Qcle_trans with (Qcpower (Q2Qc 2) 600).
  - apply potencia_crescente; [qc_decide | lia].
  - qc_decide.
Qed.

Lemma busca_S n b log :
  busca (S n) dados modalidade b log =
  let valor_teste := (valor_min b + valor_max b) / Q2Qc 2 in
  let rendimento_simulado := simular_rendimento_mensal valor_teste dados modalidade in
  let diferenca := erro dados modalidade valor_teste in
  let b1 :=
    if melhora diferenca (menor_diferenca b)
    then mkBusca (valor_min b) (valor_max b) valor_teste (Some diferenca)
    else b in
  if Num.ltb diferenca 1 || Num.ltb (Qcabs (valor_max b - valor_min b)) 1
  then (b1, log ++ [valor_teste])
  else if Num.ltb rendimento_simulado (rendimento_desejado dados)
  then busca n dados modalidade
         (mkBusca valor_teste (valor_max b1) (melhor_valor b1) (menor_diferenca b1))
         (log ++ [valor_teste])
  else busca n dados modalidade
         (mkBusca (valor_min b1) valor_teste (melhor_valor b1) (menor_diferenca b1))
         (log ++ [valor_teste]).
Proof.
  cbn [busca]. unfold bind, sondar, ret, erro. cbv zeta.
  destruct (_ || _); [reflexivity |].
  destruct (Num.ltb _ (rendimento_desejado dados)); reflexivity.
Qed.

Lemma rastreia_limites vistos b b' :
  melhor_valor b' = melhor_valor b ->
  menor_diferenca b' = menor_diferenca b ->
  rastreia dados modalidade vistos b -> rastreia dados modalidade vistos b'.
Proof.
  unfold rastreia. intros -> ->. exact (fun H => H).
Qed.

(** One probe more keeps the tracking. *)
Lemma rastreia_passo vistos b v :
  rastreia dados modalidade vistos b ->
  rastreia dados modalidade (vistos ++ [v])
    (if melhora (erro dados modalidade v) (menor_diferenca b)
     then mkBusca (valor_min b) (valor_max b) v (Some (erro dados modalidade v))
     else b).
Proof.
  intros [[-> Hn] | [Hin [Hm Hle]]]; right.
  - rewrite Hn. cbn [melhora app melhor_valor menor_diferenca].
    split; [now left | split; [reflexivity |]].
    intros u [<- | []]. apply Qcle_refl.
  - rewrite Hm. cbn [melhora].
    destruct (Num.ltb (erro dados modalidade v) (erro dados modalidade (melhor_valor b)))
      eqn:Hlt.
    + apply NumFacts.ltb_true in Hlt. cbn [melhor_valor menor_diferenca].
      split; [apply in_or_app; right; now left | split; [reflexivity |]].
      intros u Hu. apply in_app_or in Hu. destruct Hu as [Hu | [<- | []]].
      * apply Qclt_le_weak. eapply Qclt_le_trans; [exact Hlt | now apply Hle].
      * apply Qcle_refl.
    + apply NumFacts.ltb_false in Hlt.
      split; [apply in_or_app; now left | split; [exact Hm |]].
      intros u Hu. apply in_app_or in Hu. destruct Hu as [Hu | [<- | []]].
      * now apply Hle.
      * exact Hlt.
Qed.

(** The bisection loop: it probes between one and [n] capitals, appends
    them to the log, and keeps the tracking. *)
Lemma busca_rastreia n :
  forall b log vistos,
    rastreia dados modalidade vistos b ->
    exists b' vs,
      busca n dados modalidade b log = (b', log ++ vs) /\
      (length vs <= n)%nat /\
      (n <> 0%nat -> vs <> []) /\
      rastreia dados modalidade (vistos ++ vs) b'.
Proof.
  induction n as [| n IH]; intros b log vistos Hr.
  - exists b, []. cbn [busca]. unfold ret. rewrite !app_nil_r.
    split; [reflexivity | split; [cbn; lia | split; [congruence | exact Hr]]].
  - rewrite busca_S. cbv zeta.
    set (v := (valor_min b + valor_max b) / Q2Qc 2).
    pose proof (rastreia_passo vistos b v Hr) as Hr1.
    set (b1 := if melhora (erro dados modalidade v) (menor_diferenca b)
               then mkBusca (valor_min b) (valor_max b) v (Some (erro dados modalidade v))
               else b) in *.
    destruct (_ || _).
    + exists b1, (v :: nil).
      split; [reflexivity | split; [cbn; lia | split; [discriminate | exact Hr1]]].
    + destruct (Num.ltb _ (rendimento_desejado dados)).
      * destruct (IH (mkBusca v (valor_max b1) (melhor_valor b1) (menor_diferenca b1))
                     (log ++ [v]) (vistos ++ [v])) as [b' [vs [E [L [_ R]]]]].
        { eapply rastreia_limites; [| | exact Hr1]; reflexivity. }
        exists b', (v :: vs). rewrite E.
        split; [now rewrite <- app_assoc |].
        split; [cbn; lia | split; [discriminate |]].
        now rewrite <- app_assoc in R.
      * destruct (IH (mkBusca (valor_min b1) v (melhor_valor b1) (menor_diferenca b1))
                     (log ++ [v]) (vistos ++ [v])) as [b' [vs [E [L [_ R]]]]].
        { eapply rastreia_limites; [| | exact Hr1]; reflexivity. }
        exists b', (v :: vs). rewrite E.
        split; [now rewrite <- app_assoc |].
        split; [cbn; lia | split; [discriminate |]].
        now rewrite <- app_assoc in R.
Qed.

(** The whole bisection, from the empty log. *)
Lemma busca_completa est :
  exists b log,
    executar (busca 50 dados modalidade (busca_inicial dados est)) = (b, log) /\
    (1 <= length log <= 50)%nat /\
    In (melhor_valor b) log /\
    menor_diferenca b = Some (erro dados modalidade (melhor_valor b)) /\
    (forall v, In v log ->
       erro dados modalidade (melhor_valor b) <= erro dados modalidade v).
Proof.
  destruct (busca_rastreia 50 (busca_inicial dados est) [] [])
    as [b [vs [E [L [N R]]]]].
  { left. split; reflexivity. }
  cbn [app] in E, R.
  exists b, vs. split; [exact E |].
  assert (Hne : vs <> []) by (apply N; discriminate).
  split; [destruct vs; [congruence | cbn [length] in L |- *; lia] |].
  destruct R as [[-> _] | R]; [congruence | exact R].
Qed.

(** Outcome of the final check, given what the bisection tracked. *)
Lemma concluir_resultado b log :
  menor_diferenca b = Some (erro dados modalidade (melhor_valor b)) ->
  (rendimento_desejado dados * Q2Qc 0.1 < erro dados modalidade (melhor_valor b) /\
   concluir dados modalidade b log = (inl PrecisaoInadequada, log)) \/
  (~ rendimento_desejado dados * Q2Qc 0.1 < erro dados modalidade (melhor_valor b) /\
   concluir dados modalidade b log =
     (inr (mkResultado
             (melhor_valor b)
             (simular_rendimento_mensal (melhor_valor b) dados modalidade)
             (melhor_valor b + aporte_mensal dados * Num.of_int (prazo_meses dados))
             (erro dados modalidade (melhor_valor b))),
      log ++ [melhor_valor b])).
Proof.
  intro Hm. unfold concluir. rewrite Hm.
  destruct (Num.ltb _ _) eqn:Hlt.
  - left. apply NumFacts.ltb_true in Hlt. split; [exact Hlt | reflexivity].
  - right. apply NumFacts.ltb_false in Hlt.
    split; [intro K; exact (Qcle_not_lt _ _ Hlt K) | reflexivity].
Qed.

Lemma executar_bind (A B : Type) (c : Sonda A) (k : A -> Sonda B) a log :
  executar c = (a, log) -> executar (bind c k) = k a log.
Proof.
  unfold executar, bind. intros ->. reflexivity.
Qed.

Lemma calcular_valor_necessario_eq est b log :
  estimativa_inicial dados modalidade = inr est ->
  executar (busca 50 dados modalidade (busca_inicial dados est)) = (b, log) ->
  executar (calcular_valor_necessario dados modalidade) =
  concluir dados modalidade b log.
Proof.
  intros He Hb. unfold calcular_valor_necessario. rewrite He.
  now apply executar_bind.
Qed.

End Solver.

(** C5 (as amended). The forward simulator returns at most 600 records.  On
    a validated reverse scenario the solver either raises the precision
    error or returns a result; the bisection loop evaluates the probe
    between 1 and 50 times, a failing run evaluates it no further, and a
    successful run evaluates it once more, at the best capital, to fill
    [rendimento_mensal_previsto]: at most 51 evaluations in total. *)
Theorem limites_de_terminacao (dn : DadosNormal) (mn : Modalidade)
    (dr : Reverso.Dados) (mr : Modalidade) :
  Reverso.cenario_valido dr ->
  (length (simular_investimento dn mn) <= 600)%nat /\
  (length (snd (Reverso.executar (Reverso.calcular_valor_necessario dr mr))) <= 51)%nat /\
  exists est b log,
    Reverso.estimativa_inicial dr mr = inr est /\
    Reverso.executar (Reverso.busca 50 dr mr (Reverso.busca_inicial dr est)) = (b, log) /\
    (1 <= length log <= 50)%nat /\
    (Reverso.executar (Reverso.calcular_valor_necessario dr mr)
       = (inl Reverso.PrecisaoInadequada, log) \/
     exists r,
       Reverso.executar (Reverso.calcular_valor_necessario dr mr)
         = (inr r, log ++ [Reverso.melhor_valor b])).
Proof.
  intro V. pose proof V as [_ [Hp [_ [Ht _]]]].
  split; [apply simular_investimento_no_maximo_600 |].
  destruct (estimativa_inicial_definida dr mr Ht) as [est He];
    [lia | now apply cenario_valido_sem_estouro |].
  destruct (busca_completa dr mr est) as [b [log [Hb [Hl [_ [Hm _]]]]]].
  pose proof (calcular_valor_necessario_eq dr mr est b log He Hb) as Hc.
  destruct (concluir_resultado dr mr b log Hm) as [[_ E] | [_ E]];
    rewrite E in Hc.
  - split; [rewrite Hc; cbn [snd]; lia |].
    exists est, b, log. split; [exact He |]. split; [exact Hb |].
    split; [exact Hl |]. left. exact Hc.
  - split; [rewrite Hc; cbn [snd]; rewrite length_app; cbn [length]; lia |].
    exists est, b, log. split; [exact He |]. split; [exact Hb |].
    split; [exact Hl |]. right. eexists. exact Hc.
Qed.

Lemma limites_de_terminacao_witness :
  (length (simular_investimento cenario_a cdi_105) <= 600)%nat /\
  (length (snd (Reverso.executar
                  (Reverso.calcular_valor_necessario Reverso.cenario_b cdi_105))) <= 51)%nat.
Proof.
  destruct (limites_de_terminacao cenario_a cdi_105 Reverso.cenario_b cdi_105)
    as [A [B _]].
  - split; [qc_decide |]. split; [cbn; lia |]. split; [qc_decide |]. split; qc_decide.
  - split; [exact A | exact B].
Defined.

(** C5, as the specification states it, fails: on a validated scenario whose
    bisection uses its 50 iterations and succeeds, the probe is evaluated 51
    times. *)
Lemma cinquenta_sondagens_nao_bastam :
  ~ (forall dados modalidade,
       Reverso.cenario_valido dados ->
       (length (snd (Reverso.executar
                       (Reverso.calcular_valor_necessario dados modalidade))) <= 50)%nat).
Proof.
  intro H.
  assert (V : Reverso.cenario_valido Reverso.cenario_longo).
  { split; [qc_decide |]. split; [cbn; lia |]. split; [qc_decide |]. split; qc_decide. }
  specialize (H Reverso.cenario_longo cdi_105 V).
  assert (E : length (snd (Reverso.executar
                (Reverso.calcular_valor_necessario Reverso.cenario_longo cdi_105)))
              = 51%nat) by (vm_compute; reflexivity).
  rewrite E in H. lia.
Qed.




(** C7. Whenever the solver succeeds, the returned record holds: as
    required initial capital the best candidate, a capital probed by the
    bisection whose absolute probe error is the least among those probed; as
    predicted monthly yield the probe at that capital; as total invested the
    best candidate plus the contribution times the horizon; and as
    convergence error the least error tracked, which is the absolute
    difference between the probe at the best candidate and the desired
    yield. *)
Theorem resultado_composto (dados : Reverso.Dados) (modalidade : Modalidade)
    (r : Reverso.Resultado) :
  fst (Reverso.executar (Reverso.calcular_valor_necessario dados modalidade)) = inr r ->
  exists est b log,
    Reverso.estimativa_inicial dados modalidade = inr est /\
    Reverso.executar (Reverso.busca 50 dados modalidade (Reverso.busca_inicial dados est))
      = (b, log) /\
    In (Reverso.melhor_valor b) log /\
    Reverso.valor_inicial_necessario r = Reverso.melhor_valor b /\
    Reverso.rendimento_mensal_previsto r =
      Reverso.simular_rendimento_mensal (Reverso.melhor_valor b) dados modalidade /\
    Reverso.valor_total_investido r =
      Reverso.melhor_valor b
      + Reverso.aporte_mensal dados * Num.of_int (Reverso.prazo_meses dados) /\
    Reverso.menor_diferenca b = Some (Reverso.diferenca_rendimento r) /\
    Reverso.minimo_dos_erros dados modalidade log (Reverso.diferenca_rendimento r) /\
    Reverso.diferenca_rendimento r =
      Qcabs (Reverso.simular_rendimento_mensal (Reverso.melhor_valor b) dados modalidade
             - Reverso.rendimento_desejado dados).
Proof.
  intro H.
  destruct (Reverso.estimativa_inicial dados modalidade) as [e | est] eqn:He.
  { unfold Reverso.calcular_valor_necessario in H. rewrite He in H. discriminate H. }
  destruct (busca_completa dados modalidade est) as [b [log [Hb [_ [Hin [Hm Hle]]]]]].
  pose proof (calcular_valor_necessario_eq dados modalidade est b log He Hb) as Hc.
  rewrite Hc in H.
  destruct (concluir_resultado dados modalidade b log Hm) as [[_ E] | [_ E]];
    rewrite E in H; cbn [fst] in H; [discriminate H |].
  injection H as <-.
  exists est, b, log. cbn [Reverso.valor_inicial_necessario Reverso.rendimento_mensal_previsto
                           Reverso.valor_total_investido Reverso.diferenca_rendimento].
  split; [reflexivity |]. split; [exact Hb |]. split; [exact Hin |].
  split; [reflexivity |]. split; [reflexivity |]. split; [reflexivity |].
  split; [exact Hm |].
  split; [| reflexivity].
  split; [exists (Reverso.melhor_valor b); split; [exact Hin | reflexivity] | exact Hle].
Qed.

Lemma resultado_composto_witness :
  exists r,
    fst (Reverso.executar (Reverso.calcular_valor_necessario Reverso.cenario_b cdi_105))
      = inr r /\
    Reverso.valor_total_investido r =
      Reverso.valor_inicial_necessario r
      + Reverso.aporte_mensal Reverso.cenario_b
        * Num.of_int (Reverso.prazo_meses Reverso.cenario_b).
Proof.
  assert (E : exists r,
             fst (Reverso.executar
                    (Reverso.calcular_valor_necessario Reverso.cenario_b cdi_105)) = inr r)
    by (vm_compute; eexists; reflexivity).
  destruct E as [r E]. exists r. split; [exact E |].
  destruct (resultado_composto Reverso.cenario_b cdi_105 r E)
    as [est [b [log [_ [_ [_ [A [_ [B _]]]]]]]]].
  rewrite A. exact B.
Defined.

(** * Further properties of the engine and of its callers *)

(** ** Sums and signs *)

Lemma sum_desde (l : list Qc) (a : Qc) :
  fold_left Qcplus l a = a + Num.sum l.
Proof.
  unfold Num.sum. revert a.
  induction l as [| x l IH]; intro a; cbn [fold_left].
  - ring.
  - rewrite (IH (a + x)), (IH (0 + x)). ring.
Qed.

Lemma sum_cons (x : Qc) (l : list Qc) : Num.sum (x :: l) = x + Num.sum l.
Proof.
  unfold Num.sum at 1. cbn [fold_left]. rewrite sum_desde. ring.
Qed.

Lemma sum_snoc (l : list Qc) (x : Qc) : Num.sum (l ++ [x]) = Num.sum l + x.
Proof.
  unfold Num.sum. rewrite fold_left_app. reflexivity.
Qed.

Lemma sum_nao_negativa (l : list Qc) :
  (forall x, In x l -> 0 <= x) -> 0 <= Num.sum l.
Proof.
  induction l as [| x l IH]; intro H.
  - apply Qcle_refl.
  - rewrite sum_cons.
    assert (Hx : 0 <= x) by (apply H; now left).
    assert (Hl : 0 <= Num.sum l) by (apply IH; intros y Hy; apply H; now right).
    qc_lra.
Qed.

Lemma produto_positivo (a b : Qc) : 0 < a -> 0 < b -> 0 < a * b.
Proof.
  intros Ha Hb. replace 0 with (0 * b) by ring.
  now apply Qcmult_lt_compat_r.
Qed.

Lemma produto_nao_negativo (a b : Qc) : 0 <= a -> 0 <= b -> 0 <= a * b.
Proof.
  intros Ha Hb. replace 0 with (0 * b) by ring.
  now apply Qcmult_le_compat_r.
Qed.

Lemma calcular_ir_nao_negativo (g : Qc) (d : Z) : 0 <= calcular_ir g d.
Proof.
  destruct (Qclt_le_dec 0 g) as [Hg | Hg].
  - destruct (calcular_ir_limites g d Hg) as [L _]. qc_lra.
  - rewrite (calcular_ir_nao_positivo g d Hg). apply Qcle_refl.
Qed.

Lemma ir_do_periodo_limites (considera : bool) (modalidade : Modalidade) (g : Qc) (meses : Z) :
  0 < g ->
  0 <= ir_do_periodo considera modalidade g meses /\
  ir_do_periodo considera modalidade g meses < g.
Proof.
  intro Hg. pose proof (liquido_positivo g considera modalidade meses Hg) as Hl.
  split; [| qc_lra].
  unfold ir_do_periodo. destruct (considera && tem_ir modalidade).
  - apply calcular_ir_nao_negativo.
  - apply Qcle_refl.
Qed.

(** ** Forward simulator: numbering, growth, untaxed closed form *)

Section ForwardInvariants.

Variables (dados : DadosNormal) (modalidade : Modalidade).

Lemma simular_investimento_nth (i : nat) (r : Registro) :
  nth_error (simular_investimento dados modalidade) i = Some r ->
  r = registro_do_periodo dados modalidade i /\
  saldo_anterior dados (simular_investimento dados modalidade) i =
    saldo_apos dados modalidade i.
Proof.
  intro H.
  destruct (simular_investimento_periodos dados modalidade) as [n [E _]].
  rewrite E in *.
  destruct (periodos_nth dados modalidade n i r H) as [Hi Hr].
  split; [exact Hr | now apply saldo_anterior_periodos].
Qed.

Lemma saldo_apos_positivo (k : nat) :
  0 < valor_inicial dados -> 0 <= aporte_mensal dados -> 0 < taxa_mensal dados ->
  0 < saldo_apos dados modalidade k.
Proof.
  intros Hv Ha Ht. induction k as [| k IH]; [exact Hv |].
  rewrite saldo_apos_S. unfold registro_do_periodo. cbn [saldo].
  pose proof (produto_positivo _ _ IH Ht) as Hg.
  pose proof (liquido_positivo _ (considerar_ir dados) modalidade (Z.of_nat k) Hg) as Hl.
  qc_lra.
Qed.

Lemma simular_investimento_ultimo_saldo :
  last (map saldo (simular_investimento dados modalidade)) (valor_inicial dados) =
  saldo_apos dados modalidade (length (simular_investimento dados modalidade)).
Proof.
  destruct (simular_investimento_periodos dados modalidade) as [n [E _]].
  rewrite E, periodos_length.
  destruct n as [| n]; [reflexivity |].
  rewrite periodos_S, map_app. cbn [map]. rewrite last_last.
  symmetry. apply saldo_apos_S.
Qed.

End ForwardInvariants.

(** X1. The records of the forward simulator are numbered from 1 without a
    gap: the record at position [i] (from 0) has [mes = i + 1], so the
    [mes] of the last record is the length of the sequence. *)
Theorem registros_numerados (dados : DadosNormal) (modalidade : Modalidade)
    (i : nat) (r : Registro) :
  nth_error (simular_investimento dados modalidade) i = Some r ->
  mes r = (Z.of_nat i + 1)%Z.
Proof.
  intro H. destruct (simular_investimento_nth dados modalidade i r H) as [-> _].
  reflexivity.
Qed.

Lemma registros_numerados_witness :
  mes (registro_do_periodo cenario_a cdi_105 7) = 8%Z.
Proof.
  apply (registros_numerados cenario_a cdi_105 7
           (registro_do_periodo cenario_a cdi_105 7)).
  vm_compute. reflexivity.
Defined.



Lemma saldo_apos_sem_ir (dados : DadosNormal) (modalidade : Modalidade) (k : nat) :
  considerar_ir dados && tem_ir modalidade = false ->
  taxa_mensal dados <> 0 ->
  saldo_apos dados modalidade k =
    valor_inicial dados * Qcpower (1 + taxa_mensal dados) k
    + aporte_mensal dados * ((Qcpower (1 + taxa_mensal dados) k - 1) / taxa_mensal dados).
Proof.
  intros Hn Ht. induction k as [| k IH].
  - cbn [Qcpower]. change (saldo_apos dados modalidade 0) with (valor_inicial dados).
    field. exact Ht.
  - rewrite saldo_apos_S. unfold registro_do_periodo, ir_do_periodo. cbn [saldo].
    rewrite Hn, IH. cbn [Qcpower]. field. exact Ht.
Qed.

(** X3. When no tax applies (the option is off or the modality is exempt)
    and the periodic rate is not zero, the balance of the record of period
    [i + 1] is the compound-interest closed form: the initial capital times
    [(1 + rate)^(i+1)] plus the contribution times
    [((1 + rate)^(i+1) - 1) / rate]; and its withheld tax is zero. *)
Theorem saldo_sem_ir_forma_fechada (dados : DadosNormal) (modalidade : Modalidade)
    (i : nat) (r : Registro) :
  considerar_ir dados && tem_ir modalidade = false ->
  taxa_mensal dados <> 0 ->
  nth_error (simular_investimento dados modalidade) i = Some r ->
  ir r = 0 /\
  saldo r =
    valor_inicial dados * Qcpower (1 + taxa_mensal dados) (S i)
    + aporte_mensal dados
      * ((Qcpower (1 + taxa_mensal dados) (S i) - 1) / taxa_mensal dados).
Proof.
  intros Hn Ht H.
  destruct (simular_investimento_nth dados modalidade i r H) as [-> _].
  split.
  - unfold registro_do_periodo, ir_do_periodo. cbn [ir]. now rewrite Hn.
  - rewrite <- saldo_apos_S. now apply saldo_apos_sem_ir.
Qed.

Lemma saldo_sem_ir_forma_fechada_witness :
  saldo (registro_do_periodo
           (mkDadosNormal (Q2Qc 1000) (Q2Qc 100) (Q2Qc 5000) (Q2Qc 0.01) false)
           cdi_105 2) =
  Q2Qc 1000 * Qcpower (1 + Q2Qc 0.01) 3
  + Q2Qc 100 * ((Qcpower (1 + Q2Qc 0.01) 3 - 1) / Q2Qc 0.01).
Proof.
  refine (proj2 (saldo_sem_ir_forma_fechada
                   (mkDadosNormal (Q2Qc 1000) (Q2Qc 100) (Q2Qc 5000) (Q2Qc 0.01) false)
                   cdi_105 2 _ _ _ _)).
  - reflexivity.
  - vm_compute. discriminate.
  - vm_compute. reflexivity.
Defined.

(** ** Quick comparison *)

Section Comparison.

Variables (taxa_mensal aporte_mensal meta : Qc) (modalidade : Modalidade).

Lemma laco_comparacao_eq (c : EstadoComparacao) :
  laco_comparacao taxa_mensal aporte_mensal meta modalidade c =
  if continua_comparacao meta c
  then laco_comparacao taxa_mensal aporte_mensal meta modalidade
         (passo_comparacao taxa_mensal aporte_mensal modalidade c)
  else c.
Proof.
  assert (G : forall b (H : continua_comparacao meta c = b),
             laco_comparacao_unfold_clause_1 taxa_mensal aporte_mensal meta modalidade c
               (exist _ b H) =
             if b
             then laco_comparacao taxa_mensal aporte_mensal meta modalidade
                    (passo_comparacao taxa_mensal aporte_mensal modalidade c)
             else c)
    by (intros [] H; reflexivity).
  rewrite laco_comparacao_equation_1. unfold inspecionar. apply G.
Qed.

End Comparison.

Lemma laco_comparacao_acompanha (dados : DadosNormal) (modalidade : Modalidade) :
  considerar_ir dados = true ->
  forall e c,
    mesmo_estado e c ->
    mesmo_estado (laco dados modalidade e)
      (laco_comparacao (taxa_mensal dados) (aporte_mensal dados) (meta dados) modalidade c).
Proof.
  intros Hir e. remember (restante e) as n eqn:Hn.
  revert e Hn. induction n as [n IH] using lt_wf_ind. intros e Hn c [Hs [Hm Ht]].
  rewrite laco_eq, laco_comparacao_eq.
  assert (Hc : continua_comparacao (meta dados) c = continua dados e)
    by (unfold continua_comparacao, continua; now rewrite Hs, Hm).
  rewrite Hc. destruct (continua dados e) eqn:Hk.
  - apply (IH (restante (passo dados modalidade e))); [| reflexivity |].
    + subst n. unfold continua in Hk. apply andb_true_iff in Hk.
      destruct Hk as [_ Hk]. apply Z.ltb_lt in Hk.
      unfold restante. cbn [passo e_meses]. lia.
    + unfold mesmo_estado, passo, passo_comparacao, ir_do_periodo.
      cbn [c_saldo c_meses c_total_ir e_saldo e_meses e_resultados].
      rewrite Hir, Hs, Hm, Ht. cbn [andb].
      split; [reflexivity |]. split; [reflexivity |].
      rewrite map_app. cbn [map ir]. now rewrite sum_snoc.
  - split; [exact Hs | split; [exact Hm | exact Ht]].
Qed.

(** X4. For a modality of the catalogue, the loop of the quick comparison
    gives the month count, the final balance and the total tax of the
    forward simulator run with the tax option on and the periodic rate
    [taxa_selic_mensal * (percentual_cdi / 100)]: the month count is the
    number of records, the final balance is the last recorded balance (the
    initial capital when there is no record), and the total tax is the sum
    of the recorded taxes. *)
Theorem comparacao_igual_simulacao (valor_inicial aporte_mensal meta taxa_selic_mensal : Qc)
    (modalidade : Modalidade) :
  let dados :=
    mkDadosNormal valor_inicial aporte_mensal meta
      (taxa_selic_mensal * (percentual_cdi modalidade / Q2Qc 100)) true in
  let resultados := simular_investimento dados modalidade in
  let fim := simular_comparacao valor_inicial aporte_mensal meta taxa_selic_mensal modalidade in
  c_meses fim = Z.of_nat (length resultados) /\
  c_saldo fim = last (map saldo resultados) valor_inicial /\
  c_total_ir fim = Num.sum (map ir resultados).
Proof.
  intros dados resultados fim.
  assert (R : mesmo_estado (laco dados modalidade (estado_inicial dados)) fim).
  { apply (laco_comparacao_acompanha dados modalidade eq_refl).
    split; [reflexivity | split; reflexivity]. }
  destruct R as [Hs [Hm Ht]].
  destruct (laco_primeira_parada dados modalidade (estado_inicial dados)) as [j [E _]].
  assert (Hl : length resultados = j).
  { unfold resultados, simular_investimento. rewrite E. apply periodos_length. }
  split; [| split].
  - rewrite Hm, E, iterar_meses, Hl. cbn [estado_inicial e_meses]. lia.
  - rewrite Hs, E.
    pose proof (simular_investimento_ultimo_saldo dados modalidade) as Hu.
    fold resultados in Hu. rewrite Hl in Hu. symmetry. exact Hu.
  - exact Ht.
Qed.

Lemma obter_nome (chave : string) (d : list (string * Modalidade)) :
  contem chave d = true <-> exists m, obter chave d = Some m.
Proof.
  unfold contem. destruct (obter chave d) as [m |]; split.
  - intros _. now exists m.
  - reflexivity.
  - discriminate.
  - intros [m H]. discriminate H.
Qed.

Lemma comparacao_rapida_nomes (vi ap mt selic : Qc) (nomes : list string) :
  forall acc,
    map rc_nome (fold_left (comparar_uma vi ap mt selic) nomes acc) =
    map rc_nome acc ++ filter (fun n => contem n modalidades) nomes.
Proof.
  induction nomes as [| n nomes IH]; intro acc; cbn [fold_left filter].
  - now rewrite app_nil_r.
  - rewrite IH. unfold comparar_uma.
    destruct (contem n modalidades) eqn:Hc.
    + destruct (proj1 (obter_nome n modalidades) Hc) as [m Hm]. rewrite Hm.
      rewrite map_app. cbn [map rc_nome]. now rewrite <- app_assoc.
    + reflexivity.
Qed.

(** X5. The quick comparison returns one result for each requested name
    that is a key of the catalogue, in the order requested, each under the
    requested name; names that are not in the catalogue are skipped without
    an error. *)
Theorem comparacao_rapida_ignora_desconhecidas
    (valor_inicial aporte_mensal meta taxa_selic_mensal : Qc) (nomes : list string) :
  map rc_nome (comparacao_rapida valor_inicial aporte_mensal meta taxa_selic_mensal nomes) =
  filter (fun n => contem n modalidades) nomes.
Proof.
  unfold comparacao_rapida. now rewrite comparacao_rapida_nomes.
Qed.

Lemma soma_ir_positiva (l : list Registro) (r : Registro) :
  (forall x, In x l -> 0 <= ir x) ->
  In r l -> 0 < ir r -> 0 < Num.sum (map ir l).
Proof.
  induction l as [| x l IH]; intros Hall Hin Hr; [destruct Hin |].
  cbn [map]. rewrite sum_cons.
  assert (Hx : 0 <= ir x) by (apply Hall; now left).
  assert (Hl : 0 <= Num.sum (map ir l)).
  { apply sum_nao_negativa. intros y Hy. apply in_map_iff in Hy.
    destruct Hy as [z [<- Hz]]. apply Hall. now right. }
  destruct Hin as [-> | Hin]; [qc_lra |].
  assert (0 < Num.sum (map ir l)) by (apply IH; auto; intros y Hy; apply Hall; now right).
  qc_lra.
Qed.

Lemma registro_ir_nao_negativo (dados : DadosNormal) (modalidade : Modalidade) (r : Registro) :
  In r (simular_investimento dados modalidade) -> 0 <= ir r.
Proof.
  intro H. apply In_nth_error in H. destruct H as [i H].
  destruct (simular_investimento_nth dados modalidade i r H) as [-> _].
  unfold registro_do_periodo, ir_do_periodo. cbn [ir].
  destruct (considerar_ir dados && tem_ir modalidade).
  - apply calcular_ir_nao_negativo.
  - apply Qcle_refl.
Qed.

Lemma comparacao_total_ir (valor_inicial aporte_mensal meta taxa_selic_mensal : Qc)
    (modalidade : Modalidade) :
  c_total_ir
    (simular_comparacao valor_inicial aporte_mensal meta taxa_selic_mensal modalidade) =
  Num.sum (map ir
             (simular_investimento
                (mkDadosNormal valor_inicial aporte_mensal meta
                   (taxa_selic_mensal * (percentual_cdi modalidade / Q2Qc 100)) true)
                modalidade)).
Proof.
  set (dados := mkDadosNormal valor_inicial aporte_mensal meta
                  (taxa_selic_mensal * (percentual_cdi modalidade / Q2Qc 100)) true).
  assert (R : mesmo_estado (laco dados modalidade (estado_inicial dados))
                (simular_comparacao valor_inicial aporte_mensal meta
                   taxa_selic_mensal modalidade)).
  { apply (laco_comparacao_acompanha dados modalidade eq_refl).
    split; [reflexivity | split; reflexivity]. }
  destruct R as [_ [_ Ht]]. exact Ht.
Qed.

(** X6. The quick comparison does not read the tax option of the form: for
    a taxed modality, a positive initial capital below the target and a
    positive rate, its total tax is positive, whereas the forward simulator
    run on the same values with the tax option off withholds nothing. *)
Theorem comparacao_sempre_tributa (valor_inicial aporte_mensal meta taxa_selic_mensal : Qc)
    (modalidade : Modalidade) :
  tem_ir modalidade = true ->
  0 < valor_inicial ->
  valor_inicial < meta ->
  0 < taxa_selic_mensal * (percentual_cdi modalidade / Q2Qc 100) ->
  0 < c_total_ir
        (simular_comparacao valor_inicial aporte_mensal meta taxa_selic_mensal modalidade) /\
  Num.sum (map ir
             (simular_investimento
                (mkDadosNormal valor_inicial aporte_mensal meta
                   (taxa_selic_mensal * (percentual_cdi modalidade / Q2Qc 100)) false)
                modalidade)) = 0.
Proof.
  intros Hir Hv Hm Ht. split.
  - rewrite (comparacao_total_ir valor_inicial aporte_mensal meta
               taxa_selic_mensal modalidade).
    set (dados := mkDadosNormal valor_inicial aporte_mensal meta
                    (taxa_selic_mensal * (percentual_cdi modalidade / Q2Qc 100)) true).
    destruct (simular_investimento_periodos dados modalidade) as [n [E [_ [F _]]]].
    assert (Hn : (0 < n)%nat).
    { destruct n as [| n]; [| lia]. exfalso.
      rewrite continua_iterar in F. apply andb_false_iff in F.
      destruct F as [F | F]; [| discriminate F].
      apply NumFacts.ltb_false in F. exact (Qcle_not_lt _ _ F Hm). }
    apply (soma_ir_positiva _ (registro_do_periodo dados modalidade 0)).
    + intros x Hx. now apply (registro_ir_nao_negativo dados modalidade).
    + rewrite E. apply (nth_error_In _ 0%nat). now apply periodos_nth_lt.
    + unfold registro_do_periodo, ir_do_periodo. cbn [ir considerar_ir dados].
      rewrite Hir. cbn [andb].
      assert (Hg : 0 < saldo_apos dados modalidade 0 * taxa_mensal dados)
        by (apply produto_positivo; [exact Hv | exact Ht]).
      destruct (calcular_ir_limites _ (Z.of_nat 0 * 30) Hg) as [L _]. qc_lra.
  - set (dados := mkDadosNormal valor_inicial aporte_mensal meta
                    (taxa_selic_mensal * (percentual_cdi modalidade / Q2Qc 100)) false).
    assert (Hz : forall x, In x (map ir (simular_investimento dados modalidade)) -> x = 0).
    { intros x Hx. apply in_map_iff in Hx. destruct Hx as [r [<- Hr]].
      apply In_nth_error in Hr. destruct Hr as [i Hr].
      destruct (simular_investimento_nth dados modalidade i r Hr) as [-> _].
      reflexivity. }
    induction (map ir (simular_investimento dados modalidade)) as [| x l IH];
      [reflexivity |].
    rewrite sum_cons, (Hz x (or_introl eq_refl)), IH; [ring |].
    intros y Hy. apply Hz. now right.
Qed.

Lemma comparacao_sempre_tributa_witness :
  0 < c_total_ir (simular_comparacao (Q2Qc 30000) (Q2Qc 2500) (Q2Qc 50000) (Q2Qc 0.01) cdi_105).
Proof.
  refine (proj1 (comparacao_sempre_tributa (Q2Qc 30000) (Q2Qc 2500) (Q2Qc 50000)
                   (Q2Qc 0.01) cdi_105 _ _ _ _)).
  - reflexivity.
  - qc_decide.
  - qc_decide.
  - qc_decide.
Defined.

(** ** Metrics of a simulation *)

Lemma of_int_0 : Num.of_int 0 = 0.
Proof. apply Qc_is_canon. reflexivity. Qed.

Lemma of_int_S (k : nat) :
  Num.of_int (Z.of_nat (S k)) = Num.of_int (Z.of_nat k) + 1.
Proof.
  unfold Num.of_int. apply Qc_is_canon.
  rewrite NumFacts.this_plus, !NumFacts.this_Q2Qc, Nat2Z.inj_succ.
  unfold Z.succ. rewrite inject_Z_plus. reflexivity.
Qed.

Lemma of_int_nao_negativo (k : nat) : 0 <= Num.of_int (Z.of_nat k).
Proof.
  induction k as [| k IH].
  - change (Z.of_nat 0) with 0%Z. rewrite of_int_0. apply Qcle_refl.
  - rewrite of_int_S. qc_lra.
Qed.

Lemma inverso_positivo (y : Qc) : 0 < y -> 0 < / y.
Proof.
  unfold Qclt. intro H.
  assert (H0 : (this 0 == 0)%Q) by reflexivity.
  assert (Hi : (this (/ y) == / this y)%Q) by apply Qred_correct.
  rewrite H0 in *. rewrite Hi. now apply Qinv_lt_0_compat.
Qed.

Lemma last_cons (A : Type) (x : A) (l : list A) (d : A) :
  last (x :: l) d = last l x.
Proof.
  revert x d. induction l as [| y l IH]; intros x d; [reflexivity |].
  change (last (x :: y :: l) d) with (last (y :: l) d).
  now rewrite (IH y d), (IH y x).
Qed.

Lemma saldo_do_ultimo_last (r : Registro) (rs : list Registro) (d : Qc) :
  saldo_do_ultimo r rs = last (map saldo (r :: rs)) d.
Proof.
  unfold saldo_do_ultimo. cbn [map]. rewrite last_cons.
  revert r. induction rs as [| x rs IH]; intro r; [reflexivity |].
  cbn [map]. rewrite !last_cons. apply IH.
Qed.

Section Accounting.

Variables (dados : DadosNormal) (modalidade : Modalidade).

Lemma saldo_apos_acima_do_investido (k : nat) :
  0 < valor_inicial dados -> 0 <= aporte_mensal dados -> 0 < taxa_mensal dados ->
  valor_inicial dados + aporte_mensal dados * Num.of_int (Z.of_nat (S k))
  < saldo_apos dados modalidade (S k).
Proof.
  intros Hv Ha Ht.
  assert (G : forall j, valor_inicial dados + aporte_mensal dados * Num.of_int (Z.of_nat j)
                        <= saldo_apos dados modalidade j
                        /\ valor_inicial dados
                           + aporte_mensal dados * Num.of_int (Z.of_nat (S j))
                           < saldo_apos dados modalidade (S j)).
  { induction j as [| j [IHle IHlt]].
    - change (Z.of_nat 0) with 0%Z. rewrite of_int_0.
      change (saldo_apos dados modalidade 0) with (valor_inicial dados).
      split; [qc_lra |].
      rewrite saldo_apos_S, of_int_S. change (Z.of_nat 0) with 0%Z. rewrite of_int_0.
      unfold registro_do_periodo. cbn [saldo].
      change (saldo_apos dados modalidade 0) with (valor_inicial dados).
      pose proof (produto_positivo _ _ Hv Ht) as Hg.
      pose proof (liquido_positivo _ (considerar_ir dados) modalidade (Z.of_nat 0) Hg) as Hl.
      qc_lra.
    - split; [qc_lra |].
      rewrite (saldo_apos_S dados modalidade (S j)), (of_int_S (S j)).
      unfold registro_do_periodo. cbn [saldo].
      pose proof (saldo_apos_positivo dados modalidade (S j) Hv Ha Ht) as Hs.
      pose proof (produto_positivo _ _ Hs Ht) as Hg.
      pose proof (liquido_positivo _ (considerar_ir dados) modalidade
                    (Z.of_nat (S j)) Hg) as Hl.
      qc_lra. }
  apply G.
Qed.

End Accounting.



(** ** The probe: horizon edge and monotonicity *)

Section ProbeShape.

Import Reverso.

Variables (dados : Dados) (modalidade : Modalidade).

(** The probe for any horizon: zero for an empty loop, otherwise the mean of
    the last net yields of the specification's recurrence. *)
Lemma sonda_forma (c : Qc) :
  simular_rendimento_mensal c dados modalidade =
  match Z.to_nat (prazo_meses dados) with
  | O => 0
  | S _ =>
      media_aritmetica
        (map (rendimento_liquido_espec c dados modalidade)
             (seq (Z.to_nat (prazo_meses dados)
                   - Nat.min 3 (Z.to_nat (prazo_meses dados)) + 1)
                  (Nat.min 3 (Z.to_nat (prazo_meses dados)))))
  end.
Proof.
  unfold simular_rendimento_mensal, laco_sonda, Num.range.
  rewrite laco_sonda_n. cbn [s_rendimentos].
  set (n := Z.to_nat (prazo_meses dados)).
  destruct n as [| k] eqn:En; [reflexivity |].
  rewrite <- En.
  destruct (map (rendimento_liquido_espec c dados modalidade) (seq 1 n)) as [| x l] eqn:El.
  - apply (f_equal (@length Qc)) in El.
    rewrite length_map, length_seq in El. cbn in El. lia.
  - rewrite <- El, length_map, length_seq.
    rewrite ultimos_map_seq by lia.
    unfold media_aritmetica. now rewrite length_map, length_seq.
Qed.

Lemma liquido_espec_monotono (s1 s2 : Qc) (k : nat) :
  0 <= taxa_mensal dados -> s1 <= s2 ->
  liquido_espec dados modalidade s1 k <= liquido_espec dados modalidade s2 k.
Proof.
  intros Ht Hs. unfold liquido_espec, imposto_espec.
  assert (Hg : s1 * taxa_mensal dados <= s2 * taxa_mensal dados)
    by now apply Qcmult_le_compat_r.
  set (g1 := s1 * taxa_mensal dados) in *. set (g2 := s2 * taxa_mensal dados) in *.
  destruct (considerar_ir dados && tem_ir modalidade); [| qc_lra].
  set (d := ((Z.of_nat k - 1) * 30)%Z).
  destruct (Qclt_le_dec 0 g1) as [H1 | H1].
  - assert (H2 : 0 < g2) by (eapply Qclt_le_trans; eauto).
    rewrite (calcular_ir_positivo g1 d H1), (calcular_ir_positivo g2 d H2).
    destruct (aliquota_limites d) as [_ U].
    assert (Hp : 0 <= (g2 - g1) * (1 - aliquota_da_tabela d)).
    { apply produto_nao_negativo; qc_lra. }
    replace ((g2 - g1) * (1 - aliquota_da_tabela d))
      with ((g2 - g2 * aliquota_da_tabela d) - (g1 - g1 * aliquota_da_tabela d))
      in Hp by ring.
    set (a1 := g1 * aliquota_da_tabela d) in *.
    set (a2 := g2 * aliquota_da_tabela d) in *.
    qc_lra.
  - rewrite (calcular_ir_nao_positivo g1 d H1).
    destruct (Qclt_le_dec 0 g2) as [H2 | H2].
    + destruct (calcular_ir_limites g2 d H2) as [_ U]. qc_lra.
    + rewrite (calcular_ir_nao_positivo g2 d H2). qc_lra.
Qed.

Lemma saldo_espec_monotono (c1 c2 : Qc) (k : nat) :
  0 <= taxa_mensal dados -> c1 <= c2 ->
  saldo_espec c1 dados modalidade k <= saldo_espec c2 dados modalidade k.
Proof.
  intros Ht Hc. induction k as [| k IH]; [exact Hc |].
  cbn [saldo_espec].
  pose proof (liquido_espec_monotono _ _ (S k) Ht IH) as Hl.
  qc_lra.
Qed.

Lemma soma_monotona (f g : nat -> Qc) (l : list nat) :
  (forall k, f k <= g k) -> Num.sum (map f l) <= Num.sum (map g l).
Proof.
  intro H. induction l as [| x l IH]; [apply Qcle_refl |].
  cbn [map]. rewrite !sum_cons. pose proof (H x). qc_lra.
Qed.

End ProbeShape.

(** X9. With a horizon of zero or fewer months the probe's loop does not
    run, and the probe returns 0 for every capital. *)
Theorem sonda_prazo_nao_positivo (c : Qc) (dados : Reverso.Dados) (modalidade : Modalidade) :
  (Reverso.prazo_meses dados <= 0)%Z ->
  Reverso.simular_rendimento_mensal c dados modalidade = 0.
Proof.
  intro H. rewrite sonda_forma.
  replace (Z.to_nat (Reverso.prazo_meses dados)) with 0%nat by lia. reflexivity.
Qed.

Lemma sonda_prazo_nao_positivo_witness :
  Reverso.simular_rendimento_mensal (Q2Qc 1000)
    (Reverso.mkDados (Q2Qc 50) (-3) (Q2Qc 10) (Q2Qc 0.01) true) cdi_105 = 0.
Proof.
  apply sonda_prazo_nao_positivo. cbn. lia.
Defined.

(** X10. With a non-negative periodic rate the probe is monotone in the
    capital: a larger initial capital never gives a smaller probed monthly
    yield, whatever the horizon, the contribution and the tax setting. *)
Theorem sonda_monotona (c1 c2 : Qc) (dados : Reverso.Dados) (modalidade : Modalidade) :
  0 <= Reverso.taxa_mensal dados ->
  c1 <= c2 ->
  Reverso.simular_rendimento_mensal c1 dados modalidade
  <= Reverso.simular_rendimento_mensal c2 dados modalidade.
Proof.
  intros Ht Hc. rewrite !sonda_forma.
  destruct (Z.to_nat (Reverso.prazo_meses dados)) as [| k] eqn:En; [apply Qcle_refl |].
  unfold Reverso.media_aritmetica. rewrite !length_map, !length_seq.
  unfold Qcdiv. apply Qcmult_le_compat_r.
  - apply soma_monotona. intro j. unfold Reverso.rendimento_liquido_espec.
    apply liquido_espec_monotono; [exact Ht |].
    now apply saldo_espec_monotono.
  - apply Qclt_le_weak. apply inverso_positivo.
    destruct (Nat.min 3 (S k)) as [| u] eqn:Eu; [lia |].
    rewrite of_int_S. pose proof (of_int_nao_negativo u). qc_lra.
Qed.

Lemma sonda_monotona_witness :
  Reverso.simular_rendimento_mensal (Q2Qc 1000) Reverso.cenario_b cdi_105
  <= Reverso.simular_rendimento_mensal (Q2Qc 2000) Reverso.cenario_b cdi_105.
Proof.
  apply sonda_monotona; qc_decide.
Defined.

(** ** Reverse solver: errors before the search, bounds, tolerance *)

Section SolverEdges.

Import Reverso.

Variables (dados : Dados) (modalidade : Modalidade).

Lemma taxa_liquida_sinal :
  taxa_liquida dados modalidade <= 0 <-> taxa_mensal dados <= 0.
Proof.
  split; intro H.
  - destruct (Qclt_le_dec 0 (taxa_mensal dados)) as [Hp | Hn]; [| exact Hn].
    pose proof (taxa_liquida_positiva dados modalidade Hp) as Hl.
    exfalso. exact (Qcle_not_lt _ _ H Hl).
  - unfold taxa_liquida.
    replace 0 with (0 * fator_ir dados modalidade) by ring.
    apply Qcmult_le_compat_r; [exact H |].
    apply Qclt_le_weak. apply fator_ir_positivo.
Qed.

Lemma calcular_valor_necessario_resultado :
  (exists e, estimativa_inicial dados modalidade = inl e /\
             executar (calcular_valor_necessario dados modalidade) = (inl e, [])) \/
  (exists est, estimativa_inicial dados modalidade = inr est /\
     (fst (executar (calcular_valor_necessario dados modalidade)) = inl PrecisaoInadequada \/
      exists r, fst (executar (calcular_valor_necessario dados modalidade)) = inr r)).
Proof.
  destruct (estimativa_inicial dados modalidade) as [e | est] eqn:He.
  - left. exists e. split; [reflexivity |].
    unfold calcular_valor_necessario. rewrite He. reflexivity.
  - right. exists est. split; [reflexivity |].
    destruct (busca_completa dados modalidade est) as [b [log [Hb [_ [_ [Hm _]]]]]].
    rewrite (calcular_valor_necessario_eq dados modalidade est b log He Hb).
    destruct (concluir_resultado dados modalidade b log Hm) as [[_ E] | [_ E]];
      rewrite E; cbn [fst].
    + now left.
    + right. eexists. reflexivity.
Qed.

Lemma estimativa_inicial_erro (e : Excecao) :
  estimativa_inicial dados modalidade = inl e ->
  (e = TaxaLiquidaNaoPositiva /\ taxa_mensal dados <= 0) \/
  (e = ZeroDivisionError /\ 0 < taxa_mensal dados /\ 0 < aporte_mensal dados
   /\ prazo_meses dados = 0%Z) \/
  (e = OverflowError /\ 0 < taxa_mensal dados
   /\ semente_transborda dados modalidade = true).
Proof.
  unfold estimativa_inicial, semente_transborda.
  destruct (Num.leb (taxa_liquida dados modalidade) 0) eqn:Hl.
  - intro H. injection H as <-. left. split; [reflexivity |].
    apply taxa_liquida_sinal. now apply NumFacts.leb_true.
  - apply NumFacts.leb_false in Hl.
    assert (Ht : 0 < taxa_mensal dados).
    { destruct (Qclt_le_dec 0 (taxa_mensal dados)) as [Hp' | Hn]; [exact Hp' |].
      exfalso. apply taxa_liquida_sinal in Hn. exact (Qcle_not_lt _ _ Hn Hl). }
    destruct (Num.ltb 0 (aporte_mensal dados)) eqn:Ha; [| discriminate].
    destruct (Num.ltb 0 (taxa_liquida dados modalidade)); [| discriminate].
    cbv zeta.
    destruct (Num.transborda _) eqn:Hs.
    + intro H. injection H as <-. right. right.
      split; [reflexivity | split; [exact Ht | reflexivity]].
    + destruct (prazo_meses dados =? 0)%Z eqn:Hp; [| discriminate].
      intro H. injection H as <-. right. left. split; [reflexivity |].
      apply NumFacts.ltb_true in Ha. apply Z.eqb_eq in Hp.
      split; [exact Ht | split; assumption].
Qed.

End SolverEdges.

(** X11. The reverse solver raises the error "Taxa liquida deve ser
    positiva" exactly when the periodic rate is zero or negative, and it
    does so before evaluating the probe. *)
Theorem taxa_nao_positiva_rejeitada (dados : Reverso.Dados) (modalidade : Modalidade) :
  (Reverso.taxa_mensal dados <= 0 ->
   Reverso.executar (Reverso.calcular_valor_necessario dados modalidade)
     = (inl Reverso.TaxaLiquidaNaoPositiva, [])) /\
  (fst (Reverso.executar (Reverso.calcular_valor_necessario dados modalidade))
     = inl Reverso.TaxaLiquidaNaoPositiva ->
   Reverso.taxa_mensal dados <= 0).
Proof.
  split.
  - intro H. unfold Reverso.calcular_valor_necessario, Reverso.estimativa_inicial.
    apply (taxa_liquida_sinal dados modalidade) in H.
    apply NumFacts.leb_true in H. rewrite H. reflexivity.
  - intro H.
    destruct (calcular_valor_necessario_resultado dados modalidade)
      as [[e [He Hx]] | [est [_ [Hx | [r Hx]]]]].
    + rewrite Hx in H. cbn [fst] in H. injection H as ->.
      destruct (estimativa_inicial_erro dados modalidade _ He)
        as [[_ K] | [[K _] | [K _]]];
        [exact K | discriminate K | discriminate K].
    + rewrite Hx in H. discriminate H.
    + rewrite Hx in H. discriminate H.
Qed.

Lemma taxa_nao_positiva_rejeitada_witness :
  Reverso.executar
    (Reverso.calcular_valor_necessario
       (Reverso.mkDados (Q2Qc 5000) 12 0 (Q2Qc (-0.01)) true) cdi_105)
  = (inl Reverso.TaxaLiquidaNaoPositiva, []).
Proof.
  apply (proj1 (taxa_nao_positiva_rejeitada
                  (Reverso.mkDados (Q2Qc 5000) 12 0 (Q2Qc (-0.01)) true) cdi_105)).
  qc_decide.
Defined.

(** X12. Called without validation, the reverse solver fails with a
    division by zero exactly when the rate and the contribution are
    positive and the horizon is zero months; nothing is probed. *)
Theorem prazo_zero_divide_por_zero (dados : Reverso.Dados) (modalidade : Modalidade) :
  (0 < Reverso.taxa_mensal dados -> 0 < Reverso.aporte_mensal dados ->
   Reverso.prazo_meses dados = 0%Z ->
   Reverso.executar (Reverso.calcular_valor_necessario dados modalidade)
     = (inl Reverso.ZeroDivisionError, [])) /\
  (fst (Reverso.executar (Reverso.calcular_valor_necessario dados modalidade))
     = inl Reverso.ZeroDivisionError ->
   0 < Reverso.taxa_mensal dados /\ 0 < Reverso.aporte_mensal dados /\
   Reverso.prazo_meses dados = 0%Z).
Proof.
  split.
  - intros Ht Ha Hp.
    unfold Reverso.calcular_valor_necessario, Reverso.estimativa_inicial.
    pose proof (taxa_liquida_positiva dados modalidade Ht) as Hl.
    pose proof Hl as Hl'. apply NumFacts.leb_false in Hl. apply NumFacts.ltb_true in Hl'.
    apply NumFacts.ltb_true in Ha. rewrite Hl, Ha, Hl', Hp. reflexivity.
  - intro H.
    destruct (calcular_valor_necessario_resultado dados modalidade)
      as [[e [He Hx]] | [est [_ [Hx | [r Hx]]]]].
    + rewrite Hx in H. cbn [fst] in H. injection H as ->.
      destruct (estimativa_inicial_erro dados modalidade _ He)
        as [[K _] | [[_ K] | [K _]]];
        [discriminate K | exact K | discriminate K].
    + rewrite Hx in H. discriminate H.
    + rewrite Hx in H. discriminate H.
Qed.

Lemma prazo_zero_divide_por_zero_witness :
  Reverso.executar
    (Reverso.calcular_valor_necessario
       (Reverso.mkDados (Q2Qc 5000) 0 (Q2Qc 100) (Q2Qc 0.01) true) cdi_105)
  = (inl Reverso.ZeroDivisionError, []).
Proof.
  apply (proj1 (prazo_zero_divide_por_zero
                  (Reverso.mkDados (Q2Qc 5000) 0 (Q2Qc 100) (Q2Qc 0.01) true) cdi_105)).
  - qc_decide.
  - qc_decide.
  - reflexivity.
Defined.

(** X13. Every result the reverse solver returns predicts a monthly yield
    within 10% of the desired one: the absolute difference between
    [rendimento_mensal_previsto] and [rendimento_desejado] is the reported
    [diferenca_rendimento] and is at most a tenth of [rendimento_desejado]. *)
Theorem resultado_dentro_da_tolerancia (dados : Reverso.Dados) (modalidade : Modalidade)
    (r : Reverso.Resultado) :
  fst (Reverso.executar (Reverso.calcular_valor_necessario dados modalidade)) = inr r ->
  Qcabs (Reverso.rendimento_mensal_previsto r - Reverso.rendimento_desejado dados)
    = Reverso.diferenca_rendimento r /\
  Reverso.diferenca_rendimento r <= Reverso.rendimento_desejado dados * Q2Qc 0.1 /\
  Reverso.rendimento_desejado dados * Q2Qc 0.9 <= Reverso.rendimento_mensal_previsto r /\
  Reverso.rendimento_mensal_previsto r <= Reverso.rendimento_desejado dados * Q2Qc 1.1.
Proof.
  intro H.
  destruct (Reverso.estimativa_inicial dados modalidade) as [e | est] eqn:He.
  { unfold Reverso.calcular_valor_necessario in H. rewrite He in H. discriminate H. }
  destruct (busca_completa dados modalidade est) as [b [log [Hb [_ [_ [Hm _]]]]]].
  rewrite (calcular_valor_necessario_eq dados modalidade est b log He Hb) in H.
  destruct (concluir_resultado dados modalidade b log Hm) as [[_ E] | [Hx E]];
    rewrite E in H; cbn [fst] in H; [discriminate H |].
  injection H as <-.
  cbn [Reverso.rendimento_mensal_previsto Reverso.diferenca_rendimento].
  assert (Hle : Reverso.erro dados modalidade (Reverso.melhor_valor b)
                <= Reverso.rendimento_desejado dados * Q2Qc 0.1).
  { destruct (Qclt_le_dec (Reverso.rendimento_desejado dados * Q2Qc 0.1)
                (Reverso.erro dados modalidade (Reverso.melhor_valor b))) as [K | K];
      [contradiction | exact K]. }
  split; [reflexivity |]. split; [exact Hle |].
  unfold Reverso.erro in Hle. rewrite Qcabs_Qcminus in Hle.
  apply Qcabs_diff_Qcle_condition in Hle. destruct Hle as [L U].
  set (p := Reverso.simular_rendimento_mensal (Reverso.melhor_valor b) dados modalidade) in *.
  split; qc_lra.
Qed.

Lemma resultado_dentro_da_tolerancia_witness :
  exists r,
    fst (Reverso.executar (Reverso.calcular_valor_necessario Reverso.cenario_b cdi_105))
      = inr r /\
    Reverso.diferenca_rendimento r
      <= Reverso.rendimento_desejado Reverso.cenario_b * Q2Qc 0.1.
Proof.
  assert (E : exists r,
             fst (Reverso.executar
                    (Reverso.calcular_valor_necessario Reverso.cenario_b cdi_105)) = inr r)
    by (vm_compute; eexists; reflexivity).
  destruct E as [r E]. exists r. split; [exact E |].
  exact (proj1 (proj2 (resultado_dentro_da_tolerancia Reverso.cenario_b cdi_105 r E))).
Defined.

(** X14. The bisection stops as soon as a probe is within one currency
    unit of the desired yield, but the final check asks for 10% of the
    desired yield: when the first probe misses by less than 1 and by more
    than a tenth of the desired yield, the solver raises the precision error
    after that single probe. *)
Theorem parada_antecipada_rejeitada (dados : Reverso.Dados) (modalidade : Modalidade)
    (est : Qc) :
  Reverso.estimativa_inicial dados modalidade = inr est ->
  let v0 := (Reverso.valor_min (Reverso.busca_inicial dados est)
             + Reverso.valor_max (Reverso.busca_inicial dados est)) / Q2Qc 2 in
  Reverso.erro dados modalidade v0 < 1 ->
  Reverso.rendimento_desejado dados * Q2Qc 0.1 < Reverso.erro dados modalidade v0 ->
  Reverso.executar (Reverso.calcular_valor_necessario dados modalidade)
    = (inl Reverso.PrecisaoInadequada, v0 :: nil).
Proof.
  intros He v0 H1 H2.
  assert (Hb : Reverso.executar
                 (Reverso.busca 50 dados modalidade (Reverso.busca_inicial dados est))
               = (Reverso.mkBusca (Reverso.valor_min (Reverso.busca_inicial dados est))
                    (Reverso.valor_max (Reverso.busca_inicial dados est))
                    v0 (Some (Reverso.erro dados modalidade v0)),
                  v0 :: nil)).
  { unfold Reverso.executar. change 50%nat with (S 49).
    rewrite busca_S. cbv zeta. fold v0.
    apply NumFacts.ltb_true in H1. rewrite H1. cbn [orb].
    reflexivity. }
  rewrite (calcular_valor_necessario_eq dados modalidade est _ _ He Hb).
  unfold Reverso.concluir. cbn [Reverso.menor_diferenca].
  apply NumFacts.ltb_true in H2. rewrite H2. reflexivity.
Qed.

Lemma parada_antecipada_rejeitada_witness :
  Reverso.executar
    (Reverso.calcular_valor_necessario
       (Reverso.mkDados 1 1 0 (Q2Qc (1 # 64)) false) cdi_105)
  = (inl Reverso.PrecisaoInadequada, Q2Qc 96 :: nil).
Proof.
  assert (H := parada_antecipada_rejeitada
                 (Reverso.mkDados 1 1 0 (Q2Qc (1 # 64)) false) cdi_105 (Q2Qc 64)).
  cbv zeta in H.
  replace (Q2Qc 96) with
    ((Reverso.valor_min
        (Reverso.busca_inicial (Reverso.mkDados 1 1 0 (Q2Qc (1 # 64)) false) (Q2Qc 64))
      + Reverso.valor_max
          (Reverso.busca_inicial (Reverso.mkDados 1 1 0 (Q2Qc (1 # 64)) false) (Q2Qc 64)))
     / Q2Qc 2) by (apply Qc_is_canon; vm_compute; reflexivity).
  apply H.
  - vm_compute. reflexivity.
  - qc_decide.
  - qc_decide.
Defined.

(** ** Reverse solver: the search stays inside its bracket *)

Lemma metade (lo hi : Qc) :
  lo <= hi -> lo <= (lo + hi) / Q2Qc 2 /\ (lo + hi) / Q2Qc 2 <= hi.
Proof.
  intro H. set (m := (lo + hi) / Q2Qc 2).
  assert (Hm : m * Q2Qc 2 = lo + hi).
  { unfold m. field. intro K. discriminate K. }
  assert (Hq : (this m * 2 == this lo + this hi)%Q).
  { rewrite <- (NumFacts.this_Q2Qc 2), <- NumFacts.this_mult, <- NumFacts.this_plus, Hm.
    reflexivity. }
  unfold Qcle in *. split; lra.
Qed.

Lemma max_limites (a b : Qc) : a <= Num.max a b /\ b <= Num.max a b.
Proof.
  unfold Num.max. destruct (Num.ltb a b) eqn:H.
  - apply NumFacts.ltb_true in H. split; [now apply Qclt_le_weak | apply Qcle_refl].
  - apply NumFacts.ltb_false in H. split; [apply Qcle_refl | exact H].
Qed.

Lemma executar_eq (A : Type) (c : Reverso.Sonda A) : Reverso.executar c = c [].
Proof. reflexivity. Qed.

Section Bracket.

Import Reverso.

Variables (dados : Dados) (modalidade : Modalidade).

(** Every capital the bisection probes lies in the bracket it starts from. *)
Lemma busca_dentro (n : nat) :
  forall b log,
    valor_min b <= valor_max b ->
    exists b' vs,
      busca n dados modalidade b log = (b', log ++ vs) /\
      Forall (fun v => valor_min b <= v /\ v <= valor_max b) vs.
Proof.
  induction n as [| n IH]; intros b log Hb.
  - exists b, []. cbn [busca]. unfold ret. rewrite app_nil_r.
    split; [reflexivity | constructor].
  - rewrite busca_S. cbv zeta.
    set (v := (valor_min b + valor_max b) / Q2Qc 2).
    destruct (metade _ _ Hb) as [Hlo Hhi]. fold v in Hlo, Hhi.
    set (b1 := if melhora (erro dados modalidade v) (menor_diferenca b)
               then mkBusca (valor_min b) (valor_max b) v (Some (erro dados modalidade v))
               else b).
    assert (Hmin : valor_min b1 = valor_min b)
      by (unfold b1; destruct (melhora _ _); reflexivity).
    assert (Hmax : valor_max b1 = valor_max b)
      by (unfold b1; destruct (melhora _ _); reflexivity).
    destruct (_ || _).
    + exists b1, (v :: nil). split; [reflexivity |].
      constructor; [split; assumption | constructor].
    + destruct (Num.ltb _ (rendimento_desejado dados)).
      * destruct (IH (mkBusca v (valor_max b1) (melhor_valor b1) (menor_diferenca b1))
                     (log ++ v :: nil)) as [b' [vs [E F]]].
        { cbn [valor_min valor_max]. now rewrite Hmax. }
        exists b', (v :: vs). rewrite E. split; [now rewrite <- app_assoc |].
        constructor; [split; assumption |].
        eapply Forall_impl; [| exact F].
        cbn [valor_min valor_max]. rewrite Hmax. intros x [A B].
        split; [eapply Qcle_trans; eauto | exact B].
      * destruct (IH (mkBusca (valor_min b1) v (melhor_valor b1) (menor_diferenca b1))
                     (log ++ v :: nil)) as [b' [vs [E F]]].
        { cbn [valor_min valor_max]. now rewrite Hmin. }
        exists b', (v :: vs). rewrite E. split; [now rewrite <- app_assoc |].
        constructor; [split; assumption |].
        eapply Forall_impl; [| exact F].
        cbn [valor_min valor_max]. rewrite Hmin. intros x [A B].
        split; [exact A | eapply Qcle_trans; eauto].
Qed.

End Bracket.

(** X15. The capital the reverse solver returns is never negative and
    never above the upper end of the initial bracket,
    [max(3 * estimate, 100 * rendimento_desejado)]. *)
Theorem capital_dentro_do_intervalo (dados : Reverso.Dados) (modalidade : Modalidade)
    (r : Reverso.Resultado) :
  fst (Reverso.executar (Reverso.calcular_valor_necessario dados modalidade)) = inr r ->
  exists est,
    Reverso.estimativa_inicial dados modalidade = inr est /\
    0 <= Reverso.valor_inicial_necessario r /\
    Reverso.valor_inicial_necessario r
      <= Num.max (est * Q2Qc 3) (Reverso.rendimento_desejado dados * Q2Qc 100).
Proof.
  intro H.
  destruct (Reverso.estimativa_inicial dados modalidade) as [e | est] eqn:He.
  { unfold Reverso.calcular_valor_necessario in H. rewrite He in H. discriminate H. }
  exists est. split; [reflexivity |].
  destruct (busca_completa dados modalidade est) as [b [log [Hb [_ [Hin [Hm _]]]]]].
  rewrite (calcular_valor_necessario_eq dados modalidade est b log He Hb) in H.
  destruct (concluir_resultado dados modalidade b log Hm) as [[_ E] | [Hx E]];
    rewrite E in H; cbn [fst] in H; [discriminate H |].
  injection H as <-. cbn [Reverso.valor_inicial_necessario].
  assert (Hd : 0 <= Reverso.rendimento_desejado dados * Q2Qc 100).
  { pose proof (Qcabs_nonneg
                  (Reverso.simular_rendimento_mensal (Reverso.melhor_valor b) dados modalidade
                   - Reverso.rendimento_desejado dados)) as Hn.
    fold (Reverso.erro dados modalidade (Reverso.melhor_valor b)) in Hn.
    destruct (Qclt_le_dec (Reverso.rendimento_desejado dados * Q2Qc 0.1)
                (Reverso.erro dados modalidade (Reverso.melhor_valor b))) as [K | K];
      [contradiction |].
    set (e := Reverso.erro dados modalidade (Reverso.melhor_valor b)) in *.
    qc_lra. }
  destruct (max_limites (est * Q2Qc 3) (Reverso.rendimento_desejado dados * Q2Qc 100))
    as [_ Hmax].
  destruct (busca_dentro dados modalidade 50 (Reverso.busca_inicial dados est) [])
    as [b' [vs [E' F]]].
  { cbn [Reverso.busca_inicial Reverso.valor_min Reverso.valor_max].
    eapply Qcle_trans; eauto. }
  rewrite (executar_eq _ (Reverso.busca 50 dados modalidade (Reverso.busca_inicial dados est)))
    in Hb.
  rewrite Hb in E'. cbn [app] in E'.
  injection E' as _ <-.
  rewrite Forall_forall in F. exact (F _ Hin).
Qed.

Lemma capital_dentro_do_intervalo_witness :
  exists r,
    fst (Reverso.executar (Reverso.calcular_valor_necessario Reverso.cenario_b cdi_105))
      = inr r /\
    0 <= Reverso.valor_inicial_necessario r.
Proof.
  assert (E : exists r,
             fst (Reverso.executar
                    (Reverso.calcular_valor_necessario Reverso.cenario_b cdi_105)) = inr r)
    by (vm_compute; eexists; reflexivity).
  destruct E as [r E]. exists r. split; [exact E |].
  destruct (capital_dentro_do_intervalo Reverso.cenario_b cdi_105 r E) as [est [_ [A _]]].
  exact A.
Defined.

(** ** Freshness of the market data *)

(** X16. For data updated at [ultima], the status line reads "Dados
    desatualizados" exactly when 12 hours or more have passed, while a
    refresh is due only when more than 12 hours have passed: whenever a
    refresh is due the status line says so, and at exactly 12 hours the
    status line already says the data are outdated though no refresh is
    due. *)
Theorem frescor_coerente (ultima agora : Z) :
  (Frescor.obter_info_atualizacao (Some ultima) agora
     = ("Dados desatualizados"%string, Frescor.cor_aviso)
   <-> (Frescor.horas 12 <= agora - ultima)%Z) /\
  (Frescor.precisa_atualizar (Some ultima) agora = true
   <-> (Frescor.horas 12 < agora - ultima)%Z) /\
  Frescor.precisa_atualizar (Some ultima) (ultima + Frescor.horas 12) = false /\
  Frescor.obter_info_atualizacao (Some ultima) (ultima + Frescor.horas 12)
    = ("Dados desatualizados"%string, Frescor.cor_aviso).
Proof.
  assert (G : forall a,
             Frescor.obter_info_atualizacao (Some ultima) a
               = ("Dados desatualizados"%string, Frescor.cor_aviso)
             <-> (Frescor.horas 12 <= a - ultima)%Z).
  { intro a. unfold Frescor.obter_info_atualizacao.
    assert (H30 : (Frescor.minutos 30 < Frescor.horas 2)%Z) by (vm_compute; reflexivity).
    assert (H2 : (Frescor.horas 2 < Frescor.horas 12)%Z) by (vm_compute; reflexivity).
    destruct (Z.ltb_spec (a - ultima) (Frescor.minutos 30)) as [A | A].
    { split; [intro K; cbn in K; discriminate K | lia]. }
    destruct (Z.ltb_spec (a - ultima) (Frescor.horas 2)) as [B | B].
    { split; [intro K; cbn in K; discriminate K | lia]. }
    destruct (Z.ltb_spec (a - ultima) (Frescor.horas 12)) as [C | C].
    { split; [intro K; cbn in K; discriminate K | lia]. }
    split; [intros _; exact C | reflexivity]. }
  split; [apply G |]. split.
  - unfold Frescor.precisa_atualizar, Frescor.intervalo_atualizacao. apply Z.ltb_lt.
  - split.
    + unfold Frescor.precisa_atualizar, Frescor.intervalo_atualizacao.
      apply Z.ltb_ge. lia.
    + apply G. lia.
Qed.

Lemma frescor_coerente_witness :
  Frescor.precisa_atualizar (Some 0%Z) (Frescor.horas 13) = true /\
  Frescor.obter_info_atualizacao (Some 0%Z) (Frescor.horas 13)
    = ("Dados desatualizados"%string, Frescor.cor_aviso).
Proof.
  destruct (frescor_coerente 0 (Frescor.horas 13)) as [A [B _]].
  split.
  - apply B. vm_compute. reflexivity.
  - apply A. vm_compute. discriminate.
Defined.

(** ** Forward simulator: a target that is never reached *)

Lemma saldo_apos_sem_crescimento (dados : DadosNormal) (modalidade : Modalidade) (k : nat) :
  0 <= valor_inicial dados ->
  aporte_mensal dados = 0 ->
  - (1) <= taxa_mensal dados -> taxa_mensal dados <= 0 ->
  0 <= saldo_apos dados modalidade k /\
  saldo_apos dados modalidade k <= valor_inicial dados.
Proof.
  intros Hv Ha Hlo Hhi. induction k as [| k [IH0 IH1]].
  - change (saldo_apos dados modalidade 0) with (valor_inicial dados).
    split; [exact Hv | apply Qcle_refl].
  - rewrite saldo_apos_S. unfold registro_do_periodo. cbn [saldo]. rewrite Ha.
    set (s := saldo_apos dados modalidade k) in *.
    assert (Hg : s * taxa_mensal dados <= 0).
    { assert (H : 0 <= s * (- taxa_mensal dados)) by (apply produto_nao_negativo; qc_lra).
      replace (s * - taxa_mensal dados) with (- (s * taxa_mensal dados)) in H by ring.
      set (p := s * taxa_mensal dados) in *. qc_lra. }
    assert (Hp : 0 <= s * (1 + taxa_mensal dados))
      by (apply produto_nao_negativo; qc_lra).
    replace (s * (1 + taxa_mensal dados)) with (s + s * taxa_mensal dados) in Hp by ring.
    assert (Hi : ir_do_periodo (considerar_ir dados) modalidade
                   (s * taxa_mensal dados) (Z.of_nat k) = 0).
    { unfold ir_do_periodo. destruct (considerar_ir dados && tem_ir modalidade);
        [now apply calcular_ir_nao_positivo | reflexivity]. }
    rewrite Hi. set (p := s * taxa_mensal dados) in *. split; qc_lra.
Qed.

(** X18. With no contribution and a periodic rate between -100% and 0, the
    balance never rises above the initial capital, so a target above it is
    never reached: the forward simulator runs into its cap and returns
    exactly 600 records, every one with a balance below the target and no
    tax withheld. *)
Theorem meta_inalcancavel_600 (dados : DadosNormal) (modalidade : Modalidade) :
  0 <= valor_inicial dados ->
  valor_inicial dados < meta dados ->
  aporte_mensal dados = 0 ->
  - (1) <= taxa_mensal dados ->
  taxa_mensal dados <= 0 ->
  length (simular_investimento dados modalidade) = 600%nat /\
  forall r, In r (simular_investimento dados modalidade) ->
            saldo r < meta dados /\ ir r = 0.
Proof.
  intros Hv Hm Ha Hlo Hhi.
  destruct (simular_investimento_periodos dados modalidade) as [n [E [L [F _]]]].
  assert (Hs : forall k, saldo_apos dados modalidade k < meta dados).
  { intro k. destruct (saldo_apos_sem_crescimento dados modalidade k Hv Ha Hlo Hhi) as [_ U].
    eapply Qcle_lt_trans; eauto. }
  split.
  - rewrite E, periodos_length.
    rewrite continua_iterar in F. apply andb_false_iff in F.
    destruct F as [F | F].
    + apply NumFacts.ltb_false in F. exfalso. exact (Qcle_not_lt _ _ F (Hs n)).
    + apply Z.ltb_ge in F. lia.
  - intros r Hr. apply In_nth_error in Hr. destruct Hr as [i Hr].
    destruct (simular_investimento_nth dados modalidade i r Hr) as [-> _].
    split.
    + rewrite <- saldo_apos_S. apply Hs.
    + unfold registro_do_periodo, ir_do_periodo. cbn [ir].
      destruct (considerar_ir dados && tem_ir modalidade); [| reflexivity].
      apply calcular_ir_nao_positivo.
      destruct (saldo_apos_sem_crescimento dados modalidade i Hv Ha Hlo Hhi) as [L0 _].
      set (s := saldo_apos dados modalidade i) in *.
      assert (H : 0 <= s * (- taxa_mensal dados)) by (apply produto_nao_negativo; qc_lra).
      replace (s * - taxa_mensal dados) with (- (s * taxa_mensal dados)) in H by ring.
      set (p := s * taxa_mensal dados) in *. qc_lra.
Qed.

Lemma meta_inalcancavel_600_witness :
  length (simular_investimento
            (mkDadosNormal (Q2Qc 1000) 0 (Q2Qc 2000) (Q2Qc (-0.5)) true) cdi_105)
  = 600%nat.
Proof.
  refine (proj1 (meta_inalcancavel_600
                   (mkDadosNormal (Q2Qc 1000) 0 (Q2Qc 2000) (Q2Qc (-0.5)) true)
                   cdi_105 _ _ _ _ _)).
  - qc_decide.
  - qc_decide.
  - reflexivity.
  - qc_decide.
  - qc_decide.
Defined.
